(** * Poke_Scraping: the Pokepedia scraper of [scraping.py]

    A shallow embedding of [scraping.py] and the properties of its two page
    parsers, of the tier computation and of the dataset loop.

    Conventions of the embedding.
    - A Python [str] is a list of Unicode code points ([pystr]).  The tables
      of the Unicode database that [str.capitalize] and [int] consult belong
      to the Python runtime and are taken as a parameter ([UnicodeData]).
    - A page is the tree that [BeautifulSoup(html, 'html.parser')] builds:
      text nodes and tags, attributes as written in the page.
    - A Python exception is a value of [exn]; a computation that may raise
      returns a [result].
    - The network, the console and the output directory form the [world];
      the functions that touch them run in the monad [M].  The console and
      the file system accept every write. *)

From Stdlib Require Import ZArith QArith.
From stdpp Require Import base tactics option list gmap strings pretty.

Local Open Scope Z_scope.

(** ** Python strings *)

Module Str.

Abbreviation char := N (only parsing).
Abbreviation pystr := (list N) (only parsing).

(** Code points of a literal written in this file (UTF-8 decoding). *)
Fixpoint utf8_decode (bs : list N) : pystr :=
  match bs with
  | [] => []
  | b :: t =>
      if (b <? 128)%N then b :: utf8_decode t
      else if (b <? 224)%N then
        match t with
        | b2 :: t' =>
            (N.lor (N.shiftl (N.land b 31) 6) (N.land b2 63)) :: utf8_decode t'
        | _ => []
        end
      else if (b <? 240)%N then
        match t with
        | b2 :: b3 :: t' =>
            (N.lor (N.shiftl (N.land b 15) 12)
               (N.lor (N.shiftl (N.land b2 63) 6) (N.land b3 63)))
            :: utf8_decode t'
        | _ => []
        end
      else
        match t with
        | b2 :: b3 :: b4 :: t' =>
            (N.lor (N.shiftl (N.land b 7) 18)
               (N.lor (N.shiftl (N.land b2 63) 12)
                  (N.lor (N.shiftl (N.land b3 63) 6) (N.land b4 63))))
            :: utf8_decode t'
        | _ => []
        end
  end.

Definition py (s : string) : pystr :=
  utf8_decode (map Ascii.N_of_ascii (String.list_ascii_of_string s)).
Arguments py s : simpl never.

(** [str.isspace] for one character. *)
Definition is_space (c : char) : bool :=
  ((9 <=? c) && (c <=? 13) || (28 <=? c) && (c <=? 32)
   || (c =? 133) || (c =? 160) || (c =? 5760)
   || (8192 <=? c) && (c <=? 8202)
   || (c =? 8232) || (c =? 8233) || (c =? 8239) || (c =? 8287)
   || (c =? 12288))%N.

Fixpoint lstrip (s : pystr) : pystr :=
  match s with
  | c :: s' => if is_space c then lstrip s' else s
  | [] => []
  end.

(** [s.strip()] *)
Definition strip (s : pystr) : pystr := rev (lstrip (rev (lstrip s))).

(** [sep.join(parts)] *)
Fixpoint join (sep : pystr) (parts : list pystr) : pystr :=
  match parts with
  | [] => []
  | [p] => p
  | p :: ps => p ++ sep ++ join sep ps
  end.

Fixpoint starts_with (p s : pystr) : bool :=
  match p, s with
  | [], _ => true
  | a :: p', b :: s' => (a =? b)%N && starts_with p' s'
  | _ :: _, [] => false
  end.

(** [s.replace(old, new)] for a non-empty [old]: the occurrences are replaced
    from left to right; [skip] counts the characters of a matched occurrence
    still to be passed over. *)
Fixpoint replace_from (old new : pystr) (skip : nat) (s : pystr) : pystr :=
  match s with
  | [] => []
  | c :: s' =>
      match skip with
      | S k => replace_from old new k s'
      | O =>
          if starts_with old s
          then new ++ replace_from old new (pred (length old)) s'
          else c :: replace_from old new 0 s'
      end
  end.

Definition replace (old new s : pystr) : pystr :=
  match old with
  | [] => new ++ concat (map (fun c => c :: new) s)
  | _ => replace_from old new 0 s
  end.

(** The part of the Unicode database that [str.capitalize] and [int] read:
    the full title-case and lower-case mappings of a character, the [Cased]
    and [Case_Ignorable] properties and the decimal digit value. *)
Class UnicodeData := {
  to_title_full : char -> pystr;
  to_lower_full : char -> pystr;
  is_cased : char -> bool;
  is_case_ignorable : char -> bool;
  to_decimal : char -> option Z
}.

Section WithUnicode.
Context {U : UnicodeData}.

Fixpoint skip_ignorable (s : pystr) : pystr :=
  match s with
  | c :: s' => if is_case_ignorable c then skip_ignorable s' else s
  | [] => []
  end.

(** A capital sigma is lowered to the final form when a cased letter
    precedes it and none follows it, case-ignorable characters apart.
    [before] holds the preceding characters, nearest first. *)
Definition final_sigma (before after : pystr) : bool :=
  match skip_ignorable before with
  | c :: _ => is_cased c
  | [] => false
  end
  && match skip_ignorable after with
     | c :: _ => negb (is_cased c)
     | [] => true
     end.

Definition lower_at (before : pystr) (c : char) (after : pystr) : pystr :=
  if (c =? 931)%N
  then [if final_sigma before after then 962%N else 963%N]
  else to_lower_full c.

Fixpoint lower_rest (before s : pystr) : pystr :=
  match s with
  | [] => []
  | c :: s' => lower_at before c s' ++ lower_rest (c :: before) s'
  end.

(** [s.capitalize()]: the first character in title case, the others in
    lower case. *)
Definition capitalize (s : pystr) : pystr :=
  match s with
  | [] => []
  | c :: r => to_title_full c ++ lower_rest [c] r
  end.

(** The digits of an integer literal: decimal digits, single underscores
    allowed between two digits. *)
Fixpoint digits_value (acc : Z) (after_digit : bool) (s : pystr) : option Z :=
  match s with
  | [] => if after_digit then Some acc else None
  | c :: s' =>
      if (c =? 95)%N
      then if after_digit then digits_value acc false s' else None
      else match to_decimal c with
           | Some d => digits_value (10 * acc + d) true s'
           | None => None
           end
  end.

(** [int(s)] for a string [s]; [None] stands for the [ValueError]. *)
Definition py_int (s : pystr) : option Z :=
  match strip s with
  | 43%N :: r => digits_value 0 false r
  | 45%N :: r => Z.opp <$> digits_value 0 false r
  | r => digits_value 0 false r
  end.

End WithUnicode.

(** The tables on Basic Latin (U+0000 to U+007F), the identity elsewhere:
    they give Python's results on ASCII text. *)
Definition basic_latin : UnicodeData := {|
  to_title_full c := if ((97 <=? c) && (c <=? 122))%N then [(c - 32)%N] else [c];
  to_lower_full c := if ((65 <=? c) && (c <=? 90))%N then [(c + 32)%N] else [c];
  is_cased c := ((65 <=? c) && (c <=? 90) || (97 <=? c) && (c <=? 122))%N;
  is_case_ignorable c :=
    ((c =? 39) || (c =? 46) || (c =? 58) || (c =? 94) || (c =? 96))%N;
  to_decimal c :=
    if ((48 <=? c) && (c <=? 57))%N then Some (Z.of_N (c - 48)) else None
|}.

End Str.
Export Str.

(** ** Exceptions *)

(** The exceptions the program can meet, one constructor per raise site or
    Python class: [ValueError] for a generation outside the table
    ([get_pokemons_from_generation]), [ValueError] for a 404 answer
    ([get_html_pokemon]), [Exception] for another status code, [Exception]
    for a listing page without table, an exception of [requests.get] itself,
    and the errors Python raises inside [parse_html]: [AttributeError] (a
    method called on [None]), [ValueError] (of [int]) and
    [UnboundLocalError]. *)
Inductive exn :=
| ValueError_generation
| ValueError_404
| Exception_status (code : Z)
| Exception_table
| RequestException
| AttributeError
| ValueError_int
| UnboundLocalError.

(** The names the design gives to these failures. *)
Inductive failure_kind :=
| InvalidGeneration | NotFound | TransportError | StructureNotFound
| MalformedPage.

Definition kind_of (e : exn) : failure_kind :=
  match e with
  | ValueError_generation => InvalidGeneration
  | ValueError_404 => NotFound
  | Exception_status _ | RequestException => TransportError
  | Exception_table => StructureNotFound
  | AttributeError | ValueError_int | UnboundLocalError => MalformedPage
  end.

Inductive result (A : Type) :=
| Ok (a : A)
| Raise (e : exn).
Arguments Ok {A} a.
Arguments Raise {A} e.

Global Instance result_ret : MRet result := fun A a => Ok a.
Global Instance result_bind : MBind result := fun A B f r =>
  match r with
  | Ok a => f a
  | Raise e => Raise e
  end.

(** [o.method(...)] where [o] may be [None] *)
Definition not_none {A} (o : option A) : result A :=
  match o with
  | Some a => Ok a
  | None => Raise AttributeError
  end.

(** ** Pages *)

Module Soup.

#[warnings="-register-all"]
Inductive node :=
| NavigableString (s : pystr)
| Tag (tag : pystr) (attrs : list (pystr * pystr)) (contents : list node).

(** A node followed by its descendants, in document order. *)
Fixpoint elements (n : node) : list node :=
  n :: match n with
       | NavigableString _ => []
       | Tag _ _ cs =>
           (fix go (l : list node) : list node :=
              match l with
              | [] => []
              | c :: l' => elements c ++ go l'
              end) cs
       end.

Definition descendants (n : node) : list node := tail (elements n).

(** Every node of a page, in document order. *)
Definition document (soup : list node) : list node :=
  concat (map elements soup).

(** [n.text] *)
Fixpoint text (n : node) : pystr :=
  match n with
  | NavigableString s => s
  | Tag _ _ cs =>
      (fix go (l : list node) : pystr :=
         match l with
         | [] => []
         | c :: l' => text c ++ go l'
         end) cs
  end.

(** [n.string]: the text of a tag whose only child is a text node, or a tag
    with such a [string]. *)
Fixpoint string_of (n : node) : option pystr :=
  match n with
  | NavigableString s => Some s
  | Tag _ _ [c] => string_of c
  | Tag _ _ _ => None
  end.

Fixpoint lookup_attr (k : pystr) (attrs : list (pystr * pystr)) : option pystr :=
  match attrs with
  | [] => None
  | (k', v) :: attrs' => if bool_decide (k' = k) then Some v else lookup_attr k attrs'
  end.

(** [n.attrs.get(k)] *)
Definition attr (k : pystr) (n : node) : option pystr :=
  match n with
  | NavigableString _ => None
  | Tag _ attrs _ => lookup_attr k attrs
  end.

Definition named (nm : pystr) (n : node) : bool :=
  match n with
  | NavigableString _ => false
  | Tag t _ _ => bool_decide (t = nm)
  end.

(** The criterion [string=f] of a search. *)
Definition string_is (f : option pystr -> bool) (n : node) : bool :=
  f (string_of n).

(** The criterion [k=v] of a search, for an attribute with one value. *)
Definition attr_is (k v : pystr) (n : node) : bool :=
  bool_decide (attr k n = Some v).

(** The criterion [k=True]. *)
Definition has_attr (k : pystr) (n : node) : bool :=
  bool_decide (is_Some (attr k n)).

(** The whitespace-separated tokens of an attribute value. *)
Fixpoint tokens (cur s : pystr) : list pystr :=
  match s with
  | [] => match cur with [] => [] | _ => [cur] end
  | c :: s' =>
      if is_space c
      then match cur with [] => tokens [] s' | _ => cur :: tokens [] s' end
      else tokens (cur ++ [c]) s'
  end.

(** The criterion [class_=c]: one of the classes of the tag is [c]. *)
Definition class_is (c : pystr) (n : node) : bool :=
  match attr (py "class") n with
  | Some v => bool_decide (c ∈ tokens [] v)
  | None => false
  end.

(** First node of [l] that meets [p], with the nodes that follow it. *)
Fixpoint first_match (p : node -> bool) (l : list node) : option (node * list node) :=
  match l with
  | [] => None
  | n :: l' => if p n then Some (n, l') else first_match p l'
  end.

(** [soup.find(...)]: the tag found and the elements after it in the page,
    from which [find_next] goes on. *)
Definition soup_find (p : node -> bool) (soup : list node) : option (node * list node) :=
  first_match p (document soup).

(** [t.find_next(...)], for [t] found with the elements [after] it. *)
Definition find_next (p : node -> bool) (after : list node) : option (node * list node) :=
  first_match p after.

(** [t.find_all(...)] *)
Definition find_all (p : node -> bool) (t : node) : list node :=
  filter (fun n => p n = true) (descendants t).

(** [t.find(...)] *)
Definition find (p : node -> bool) (t : node) : option node :=
  fst <$> first_match p (descendants t).

End Soup.
Export Soup.

(** ** The page of one Pokémon: [parse_html] *)

(** The dictionary [parse_html] returns. *)
Record pokemon_info := {
  name : pystr;
  types : pystr;
  height : pystr;
  weight : pystr;
  stats : gmap pystr Z
}.

(** A loop whose body may raise. *)
Fixpoint for_each {A S} (body : S -> A -> result S) (l : list A) (s : S) : result S :=
  match l with
  | [] => Ok s
  | a :: l' => s' ← body s a; for_each body l' s'
  end.

Section Parsers.
Context {U : UnicodeData}.

(** [soup.find('th', string=lambda text: text in ['Types', 'Type'])] *)
Definition types_label (n : node) : bool :=
  named (py "th") n
  && string_is (fun text =>
       match text with
       | Some t => bool_decide (t ∈ [py "Types"; py "Type"])
       | None => false
       end) n.

(** [soup.find('th', string=s)] *)
Definition label (s : pystr) (n : node) : bool :=
  named (py "th") n && string_is (fun text => bool_decide (text = Some s)) n.

(** The titles of the links of a cell that have one. *)
Definition link_titles (cell : node) : list pystr :=
  omap (attr (py "title")) (find_all (named (py "a")) cell).

Definition join_types (cell : node) : pystr :=
  join (py "-") (map (replace (py " (type)") []) (link_titles cell)).

(** The block of the types: [None] when the label is not found and the
    variable [types] is left unassigned. *)
Definition parse_types (html : list node) : result (option pystr) :=
  match soup_find types_label html with
  | Some (_, after) =>
      types_section ← not_none (find_next (named (py "td")) after);
      Ok (Some (join_types types_section.1))
  | None => Ok None
  end.

(** [soup.find('th', string=s).find_next('td').text.strip()] *)
Definition labelled_text (s : pystr) (html : list node) : result pystr :=
  th ← not_none (soup_find (label s) html);
  td ← not_none (find_next (named (py "td")) th.2);
  Ok (strip (text td.1)).

Definition stat_link (n : node) : bool :=
  named (py "a") n && attr_is (py "title") (py "Statistique") n.

(** The body of the loop over the rows of the statistics table. *)
Definition stat_row (stats : gmap pystr Z) (row : node) : result (gmap pystr Z) :=
  match find stat_link row with
  | Some stat_name_cell =>
      let stat_name := strip (text stat_name_cell) in
      match find_all (named (py "td")) row with
      | _ :: column :: _ =>
          match py_int (strip (text column)) with
          | Some stat_value => Ok (<[stat_name := stat_value]> stats)
          | None => Raise ValueError_int
          end
      | _ => Ok stats
      end
  | None => Ok stats
  end.

Definition stats_anchor (n : node) : bool :=
  named (py "span") n && attr_is (py "id") (py "Statistiques") n.

Definition standard_table (n : node) : bool :=
  named (py "table") n && class_is (py "tableaustandard") n.

Definition parse_stats (html : list node) : result (gmap pystr Z) :=
  match soup_find stats_anchor html with
  | Some (_, after) =>
      match find_next standard_table after with
      | Some (stats_table, _) =>
          for_each stat_row (find_all (named (py "tr")) stats_table) ∅
      | None => Ok ∅
      end
  | None => Ok ∅
  end.

Definition parse_html (html : list node) : result pokemon_info :=
  h1 ← not_none (soup_find (named (py "h1")) html);
  let name := strip (text h1.1) in
  types ← parse_types html;
  height ← labelled_text (py "Taille") html;
  weight ← labelled_text (py "Poids") html;
  stats ← parse_stats html;
  match types with
  | Some types =>
      Ok {| name := name; types := types; height := height;
            weight := weight; stats := stats |}
  | None => Raise UnboundLocalError
  end.

(** ** The listing page of a generation *)

Definition titled_link (n : node) : bool :=
  named (py "a") n && has_attr (py "title") n.

(** The body of the loop over the rows of the listing. *)
Definition listing_row (pokemon_list : list pystr) (row : node) : list pystr :=
  match find_all (named (py "td")) row with
  | _ :: _ :: column :: _ =>
      match find titled_link column with
      | Some a =>
          match attr (py "title") a with
          | Some title => pokemon_list ++ [strip title]
          | None => pokemon_list
          end
      | None => pokemon_list
      end
  | _ => pokemon_list
  end.

(** What [get_pokemons_from_generation] does with the text of a listing
    page answered with status 200. *)
Definition parse_listing (html : list node) : result (list pystr) :=
  match soup_find standard_table html with
  | None => Raise Exception_table
  | Some (table, _) =>
      let rows := find_all (named (py "tr")) table in
      let pokemon_list := foldl listing_row [] rows in
      Ok (map capitalize pokemon_list)
  end.

End Parsers.

(** ** The tier of a Pokémon *)

(** The values of the column [devis]. *)
Inductive devis := Pokeball | Superball | Hyperball | Masterball.

(** [sum(stats.values())] *)
Definition sum_values (stats : gmap pystr Z) : Z :=
  map_fold (fun _ v acc => v + acc) 0 stats.

(** [sum(stats.values()) / len(stats)] if [stats] else [0].  The quotient of
    two integers is taken exactly.  Python rounds it to the nearest double;
    50, 100 and 150 are doubles, so the rounding changes none of the
    comparisons of [devis_of] when the quotient is in the range of the
    doubles and the dictionary has fewer than 2^46 entries. *)
Definition average_stats (stats : gmap pystr Z) : Q :=
  if decide (size stats ≠ 0%nat)
  then (inject_Z (sum_values stats) / inject_Z (Z.of_nat (size stats)))%Q
  else 0%Q.

Definition Qlt_bool (x y : Q) : bool := negb (Qle_bool y x).

Definition devis_of (average_stats : Q) : devis :=
  if Qle_bool average_stats 50 then Pokeball
  else if Qlt_bool 50 average_stats && Qle_bool average_stats 100 then Superball
  else if Qlt_bool 100 average_stats && Qle_bool average_stats 150 then Hyperball
  else Masterball.

(** The tier of a dictionary of statistics ([classify] in the design). *)
Definition classify (stats : gmap pystr Z) : devis :=
  devis_of (average_stats stats).

(** ** The world: network, console and output files *)

(** What [requests.get] returns; the text of the answer is held as the tree
    BeautifulSoup builds from it. *)
Record response := {
  status_code : Z;
  response_text : list node
}.

Inductive console_line :=
| Fetching (pokemon : pystr)
| Parsed (name : pystr)
| Error_writing (pokemon : pystr) (e : exn)
| Shown (info : pokemon_info).

Inductive csv_line :=
| Header (fieldnames : list pystr)
| Row (info : pokemon_info) (d : devis).

(** [network] answers a URL with a response, or with [None] when
    [requests.get] raises, in the same way each time the URL is asked;
    [requested] lists the URLs asked so far. *)
Record world := {
  network : pystr -> option response;
  requested : list pystr;
  console : list console_line;
  files : gmap pystr (list csv_line)
}.

Definition M (A : Type) : Type := world -> result A * world.

Global Instance M_ret : MRet M := fun A a w => (Ok a, w).
Global Instance M_bind : MBind M := fun A B f m w =>
  match m w with
  | (Ok a, w') => f a w'
  | (Raise e, w') => (Raise e, w')
  end.

Definition raise {A} (e : exn) : M A := fun w => (Raise e, w).

Definition lift {A} (r : result A) : M A := fun w => (r, w).

(** [try: m except Exception as e: handler e] *)
Definition try_except {A} (m : M A) (handler : exn -> M A) : M A := fun w =>
  match m w with
  | (Ok a, w') => (Ok a, w')
  | (Raise e, w') => handler e w'
  end.

Definition add_request (url : pystr) (w : world) : world :=
  {| network := network w; requested := requested w ++ [url];
     console := console w; files := files w |}.

Definition add_line (l : console_line) (w : world) : world :=
  {| network := network w; requested := requested w;
     console := console w ++ [l]; files := files w |}.

Definition put_files (f : gmap pystr (list csv_line)) (w : world) : world :=
  {| network := network w; requested := requested w;
     console := console w; files := f |}.

Definition requests_get (url : pystr) : M response := fun w =>
  match network w url with
  | Some r => (Ok r, add_request url w)
  | None => (Raise RequestException, add_request url w)
  end.

Definition print (l : console_line) : M unit := fun w => (Ok tt, add_line l w).

(** [open(file, 'w')]: the file is created or emptied. *)
Definition open_w (file : pystr) : M unit := fun w =>
  (Ok tt, put_files (<[file := []]> (files w)) w).

(** One more line in an open file. *)
Definition write_line (file : pystr) (l : csv_line) : M unit := fun w =>
  (Ok tt, put_files (alter (fun ls => ls ++ [l]) file (files w)) w).

(** ** The program *)

Definition POKEPEDIA : pystr := py "https://pokepedia.fr/".

Definition GENERTAIONS_URL : gmap Z pystr :=
  <[1 := py "Liste_des_Pokémon_de_la_première_génération"]>
  (<[2 := py "Liste_des_Pokémon_de_la_deuxième_génération"]>
  (<[3 := py "Liste_des_Pokémon_de_la_troisième_génération"]>
  (<[4 := py "Liste_des_Pokémon_de_la_quatrième_génération"]>
  (<[5 := py "Liste_des_Pokémon_de_la_cinquième_génération"]>
  (<[6 := py "Liste_des_Pokémon_de_la_sixième_génération"]>
  (<[7 := py "Liste_des_Pokémon_de_la_septième_génération"]>
  (<[8 := py "Liste_des_Pokémon_de_la_huitième_génération"]>
  (<[9 := py "Liste_des_Pokémon_de_la_neuvième_génération"]> ∅)))))))).

Definition OUTPUT_DIR : string := "output".

Definition fieldnames : list pystr :=
  [py "name"; py "types"; py "height"; py "weight"; py "stats"; py "devis"].

Definition get_html_pokemon (pokemon_name : pystr) : M (list node) :=
  let url := POKEPEDIA ++ pokemon_name in
  response ← requests_get url;
  if status_code response =? 200 then mret (response_text response)
  else if status_code response =? 404 then raise ValueError_404
  else raise (Exception_status (status_code response)).

Section Program.
Context {U : UnicodeData}.

Definition get_pokemons_from_generation (generation : Z) : M (list pystr) :=
  match GENERTAIONS_URL !! generation with
  | None => raise ValueError_generation
  | Some page =>
      let url := POKEPEDIA ++ page in
      response ← requests_get url;
      if status_code response =? 200
      then lift (parse_listing (response_text response))
      else raise (Exception_status (status_code response))
  end.

(** The body of the [try] of [create_database]. *)
Definition write_pokemon (file pokemon : pystr) : M unit :=
  html ← get_html_pokemon pokemon;
  _ ← print (Fetching pokemon);
  pokemon_info ← lift (parse_html html);
  _ ← print (Parsed (name pokemon_info));
  let average_stats := average_stats (stats pokemon_info) in
  let devis := devis_of average_stats in
  write_line file (Row pokemon_info devis).

(** The loop of [create_database] over the roster. *)
Fixpoint write_pokemons (file : pystr) (all_pokemons : list pystr) : M unit :=
  match all_pokemons with
  | [] => mret tt
  | pokemon :: rest =>
      _ ← try_except (write_pokemon file pokemon)
            (fun e => print (Error_writing pokemon e));
      write_pokemons file rest
  end.

Definition csv_path (generation : Z) : pystr :=
  py (OUTPUT_DIR +:+ "/" +:+ "pokemon_GEN" +:+ pretty generation +:+ ".csv").

Definition create_database (generation : Z) : M unit :=
  all_pokemons ← get_pokemons_from_generation generation;
  let file := csv_path generation in
  _ ← open_w file;
  _ ← write_line file (Header fieldnames);
  write_pokemons file all_pokemons.

(** [get_pokemon], for the line [pokemon] read from the console; the
    stripped and capitalized copy of the line is not kept. *)
Definition get_pokemon (pokemon : pystr) : M unit :=
  let _ := capitalize (strip pokemon) in
  html ← get_html_pokemon pokemon;
  pokemon_info ← lift (parse_html html);
  print (Shown pokemon_info).

End Program.

(** ** Writing pages down *)

Module Html.

Definition el (tag : string) (attrs : list (string * string)) (contents : list node) : node :=
  Tag (py tag) (map (fun kv => (py kv.1, py kv.2)) attrs) contents.

Definition txt (s : string) : node := NavigableString (py s).

(** [<tr><th>label</th><td>contents</td></tr>] *)
Definition field (lbl : string) (contents : list node) : node :=
  el "tr" [] [el "th" [] [txt lbl]; el "td" [] contents].

Definition link (title s : string) : node :=
  el "a" [("href", "/x"); ("title", title)] [txt s].

(** A row of a statistics table. *)
Definition stat (nm value : string) : node :=
  el "tr" [] [el "td" [] [link "Statistique" nm]; el "td" [] [txt value]].

Definition stats_section (rows : list node) : list node :=
  [el "h2" [] [el "span" [("id", "Statistiques")] [txt "Statistiques"]];
   el "table" [("class", "tableaustandard centre")]
     (el "tr" [] [el "th" [] [txt "Statistique"]; el "th" [] [txt "Base"]] :: rows)].

End Html.

(** ** What the loops compute *)

(** The entry a row of the statistics table stands for: the text of its
    link titled "Statistique" and the text of its second data cell. *)
Definition stat_entry (row : node) : option (pystr * pystr) :=
  a ← find stat_link row;
  cell ← find_all (named (py "td")) row !! 1%nat;
  Some (strip (text a), strip (text cell)).

Definition entry_value {U : UnicodeData} (e : pystr * pystr) : option (pystr * Z) :=
  v ← py_int e.2; Some (e.1, v).

Definition set_stat (stats : gmap pystr Z) (kv : pystr * Z) : gmap pystr Z :=
  <[kv.1 := kv.2]> stats.

(** The name a row of the listing stands for: the stripped title of the
    first titled link of its third data cell. *)
Definition row_name (row : node) : option pystr :=
  cell ← find_all (named (py "td")) row !! 2%nat;
  a ← find titled_link cell;
  title ← attr (py "title") a;
  Some (strip title).

(** The page [get_html_pokemon] obtains from a site. *)
Definition fetch_page (net : pystr -> option response) (pokemon : pystr) : result (list node) :=
  match net (POKEPEDIA ++ pokemon) with
  | None => Raise RequestException
  | Some r =>
      if status_code r =? 200 then Ok (response_text r)
      else if status_code r =? 404 then Raise ValueError_404
      else Raise (Exception_status (status_code r))
  end.

(** The row of one member of the roster, when its page is fetched and
    parsed. *)
Definition pokemon_row {U : UnicodeData} (net : pystr -> option response) (pokemon : pystr) : result csv_line :=
  html ← fetch_page net pokemon;
  info ← parse_html html;
  Ok (Row info (classify (stats info))).

Definition row_if_ok {U : UnicodeData} (net : pystr -> option response) (pokemon : pystr) : option csv_line :=
  match pokemon_row net pokemon with
  | Ok row => Some row
  | Raise _ => None
  end.

(** The rows of the members of a roster that have one, in the order of the
    roster. *)
Definition rows_written {U : UnicodeData} (net : pystr -> option response) (roster : list pystr) : list csv_line :=
  omap (row_if_ok net) roster.

(** One turn of the loop: the world after the [try] and its handler. *)
Definition after_pokemon {U : UnicodeData} (file pokemon : pystr) (w : world) : world :=
  let w1 := add_request (POKEPEDIA ++ pokemon) w in
  match fetch_page (network w) pokemon with
  | Raise e => add_line (Error_writing pokemon e) w1
  | Ok html =>
      let w2 := add_line (Fetching pokemon) w1 in
      match parse_html html with
      | Raise e => add_line (Error_writing pokemon e) w2
      | Ok info =>
          put_files
            (alter (fun ls => ls ++ [Row info (classify (stats info))]) file (files w))
            (add_line (Parsed (name info)) w2)
      end
  end.

(** ** The entry point *)

(** [s.lower()] *)
Definition lower {U : UnicodeData} (s : pystr) : pystr := lower_rest [] s.

(** The line [main] itself prints, after the lines of the function it
    called: the report of the database, or the report of the exception it
    caught. *)
Inductive main_line :=
| Database_created (generation : Z)
| Error (e : exn).

(** [main], for the two lines [answer] and [line] read from the console:
    [line] is read by [main] as the generation, or by [get_pokemon] as the
    name.  The value is the line [main] prints last, if any; the prompts of
    [input] are not lines of the [console]. *)
Definition main {U : UnicodeData} (answer line : pystr) : M (option main_line) :=
  try_except
    (let a := lower (strip answer) in
     if bool_decide (a = py "yes") then
       generation ← lift (match py_int line with
                          | Some g => Ok g
                          | None => Raise ValueError_int
                          end);
       _ ← create_database generation;
       mret (Some (Database_created generation))
     else
       _ ← get_pokemon line;
       mret None)
    (fun e => mret (Some (Error e))).

(** ** Vocabulary of the further properties *)

(** The [td] that [soup.find(label).find_next('td')] reaches. *)
Definition cell_after (p : node -> bool) (html : list node) : option node :=
  th ← soup_find p html;
  td ← find_next (named (py "td")) th.2;
  Some td.1.

(** Neither the first nor the last character is white space. *)
Definition stripped (s : pystr) : Prop :=
  (∀ c r, s = c :: r → is_space c = false)
  ∧ (∀ c r, s = r ++ [c] → is_space c = false).

Definition ascii_only (s : pystr) : Prop := Forall (fun c => (c < 128)%N) s.

(** The lower-case and title-case forms of an ASCII character. *)
Definition lower_ascii (c : char) : char :=
  if ((65 <=? c) && (c <=? 90))%N then (c + 32)%N else c.

Definition title_ascii (c : char) : char :=
  if ((97 <=? c) && (c <=? 122))%N then (c - 32)%N else c.

(** The lines one turn of the loop of [create_database] prints. *)
Definition reports {U : UnicodeData} (net : pystr -> option response) (pokemon : pystr) : list console_line :=
  match fetch_page net pokemon with
  | Raise e => [Error_writing pokemon e]
  | Ok html =>
      Fetching pokemon ::
      match parse_html html with
      | Raise e => [Error_writing pokemon e]
      | Ok info => [Parsed (name info)]
      end
  end.

Definition is_error_line (l : console_line) : bool :=
  match l with
  | Error_writing _ _ => true
  | _ => false
  end.

(** ** Sample pages and a sample site *)

Module Samples.
Import Html.

Definition infobox (rows : list node) : node :=
  el "table" [("class", "tableaustandard ficheinfo")] rows.

Definition dracaufeu : list node :=
  [el "h1" [] [txt " Dracaufeu "];
   infobox
     [field "Types" [link "Feu (type)" "Feu"; link "Vol (type)" "Vol"];
      field "Taille" [txt "1,7 m"];
      field "Poids" [txt "90,5 kg"]]]
  ++ stats_section [stat "PV" "78"; stat "Attaque" "84"].

(** A page without the row of the types. *)
Definition mew_without_types : list node :=
  [el "h1" [] [txt "Mew"];
   infobox [field "Taille" [txt "0,4 m"]; field "Poids" [txt "4,0 kg"]]].

(** A page whose heading holds only white space. *)
Definition blank_heading : list node :=
  [el "h1" [] [txt " "];
   infobox
     [field "Type" [link "Psy (type)" "Psy"];
      field "Taille" [txt "0,4 m"];
      field "Poids" [txt "4,0 kg"]]].

(** A page without the row of the height. *)
Definition no_height : list node :=
  [el "h1" [] [txt "Mew"];
   infobox [field "Type" [link "Psy (type)" "Psy"]; field "Poids" [txt "4,0 kg"]]].

(** A statistics row with the name in a header cell: one data cell only. *)
Definition header_stat (nm value : string) : node :=
  el "tr" [] [el "th" [] [link "Statistique" nm]; el "td" [] [txt value]].

Definition mew_header_stats : list node :=
  [el "h1" [] [txt "Mew"];
   infobox
     [field "Type" [link "Psy (type)" "Psy"];
      field "Taille" [txt "0,4 m"];
      field "Poids" [txt "4,0 kg"]]]
  ++ stats_section [header_stat "PV" "100"].

(** A page with a statistic that is not an integer. *)
Definition mew_bad_stat : list node :=
  [el "h1" [] [txt "Mew"];
   infobox
     [field "Type" [link "Psy (type)" "Psy"];
      field "Taille" [txt "0,4 m"];
      field "Poids" [txt "4,0 kg"]]]
  ++ stats_section [stat "PV" "100"; stat "Attaque" "?"].

(** A row of a listing: number, picture, name. *)
Definition listed (number title : string) : node :=
  el "tr" []
    [el "td" [] [txt number];
     el "td" [] [el "img" [("src", "/x.png")] []];
     el "td" [] [link title title]].

Definition header_row : node :=
  el "tr" [] [el "th" [] [txt "Numéro"]; el "th" [] [txt "Nom"]].

Definition listing (rows : list node) : list node :=
  [el "h1" [] [txt "Liste"];
   el "table" [("class", "tableaustandard")] rows].

Definition listing3 : list node :=
  listing [header_row; header_row;
           listed "0001" "Bulbizarre"; listed "0002" " herbizarre";
           listed "0474" "Porygon-Z"].

Definition listing5 : list node :=
  listing [header_row;
           listed "0001" "Bulbizarre"; listed "0002" "Herbizarre";
           listed "0003" "Florizarre"; listed "0004" "Salameche";
           listed "0006" "Dracaufeu"].

Definition generation1 : pystr :=
  POKEPEDIA ++ default [] (GENERTAIONS_URL !! 1).

(** A site that lists five Pokémon in the first generation and has no page
    for Florizarre; [lookup] is the page of every other name. *)
Definition site (lookup : list node) (url : pystr) : option response :=
  if bool_decide (url = generation1)
  then Some {| status_code := 200; response_text := listing5 |}
  else if bool_decide (url = POKEPEDIA ++ py "Florizarre")
  then Some {| status_code := 404; response_text := [] |}
  else Some {| status_code := 200; response_text := lookup |}.

Definition start (net : pystr -> option response) : world :=
  {| network := net; requested := []; console := []; files := ∅ |}.

End Samples.

Module MoreSamples.
Import Html.

(** A page whose infobox puts the labels in one row and the values in the
    next. *)
Definition columns_layout : list node :=
  [el "h1" [] [txt "Mew"];
   Samples.infobox
     [field "Type" [link "Psy (type)" "Psy"];
      el "tr" [] [el "th" [] [txt "Taille"]; el "th" [] [txt "Poids"]];
      el "tr" [] [el "td" [] [txt "0,4 m"]; el "td" [] [txt "4,0 kg"]]]].

(** A page whose cell of types holds a link without title. *)
Definition untitled_type : list node :=
  [el "h1" [] [txt "Mew"];
   Samples.infobox
     [field "Type" [el "a" [("href", "/Psy")] [txt "Psy"]];
      field "Taille" [txt "0,4 m"];
      field "Poids" [txt "4,0 kg"]]].

(** A page that gives the same statistic twice. *)
Definition repeated_stat : list node :=
  [el "h1" [] [txt "Mew"];
   Samples.infobox
     [field "Type" [link "Psy (type)" "Psy"];
      field "Taille" [txt "0,4 m"];
      field "Poids" [txt "4,0 kg"]]]
  ++ stats_section [stat "PV" "100"; stat " PV " "45"].

Definition world1 : world := Samples.start (Samples.site Samples.dracaufeu).

(** The same site with a file already in the output directory. *)
Definition world_with_file : world :=
  {| network := Samples.site Samples.dracaufeu; requested := [];
     console := []; files := {[csv_path 1 := [Header []]]} |}.

(** A site whose listing of the first generation is not found. *)
Definition no_listing (url : pystr) : option response :=
  Some {| status_code := 404; response_text := [] |}.

Definition world_no_listing : world :=
  {| network := no_listing; requested := []; console := [];
     files := {[csv_path 1 := [Header []]]} |}.

End MoreSamples.

(** ** Evaluation on the samples *)

Example py_accent : py "é♀" = [233; 9792]%N.
Proof. reflexivity. Qed.

Example strip_ex : strip (py "  0,7 m ") = py "0,7 m".
Proof. reflexivity. Qed.

Example replace_ex : replace (py " (type)") [] (py "Feu (type)") = py "Feu".
Proof. reflexivity. Qed.

Example capitalize_ex :
  capitalize (U := basic_latin) (py "porygon-Z") = py "Porygon-z".
Proof. reflexivity. Qed.

Example py_int_ex :
  py_int (U := basic_latin) <$> [py "45"; py " -1_0 "; py "4 5"; py "x"; py ""; py "1__0"]
  = [Some 45; Some (-10); None; None; None; None].
Proof. reflexivity. Qed.

Example parse_dracaufeu :
  parse_html (U := basic_latin) Samples.dracaufeu
  = Ok {| name := py "Dracaufeu"; types := py "Feu-Vol"; height := py "1,7 m";
          weight := py "90,5 kg";
          stats := <[py "Attaque" := 84]> (<[py "PV" := 78]> ∅) |}.
Proof. vm_compute. reflexivity. Qed.

Example listing3_ex :
  parse_listing (U := basic_latin) Samples.listing3
  = Ok [py "Bulbizarre"; py "Herbizarre"; py "Porygon-z"].
Proof. vm_compute. reflexivity. Qed.

Example create_database_ex :
  let w := create_database (U := basic_latin) 1 (Samples.start (Samples.site Samples.dracaufeu)) in
  w.1 = Ok tt
  ∧ length <$> (files w.2 !! csv_path 1) = Some 5%nat
  ∧ length (requested w.2) = 6%nat.
Proof. vm_compute. done. Qed.

(** ** The tier computation *)

Section Tier.

Lemma sum_values_empty : sum_values ∅ = 0.
Proof. apply map_fold_empty. Qed.

Lemma sum_values_insert (stats : gmap pystr Z) (k : pystr) (v : Z) :
  stats !! k = None → sum_values (<[k := v]> stats) = v + sum_values stats.
Proof.
  intros Hk. unfold sum_values.
  apply (map_fold_insert_L (fun _ v acc => v + acc)); [| exact Hk].
  intros. lia.
Qed.

Lemma average_stats_empty : average_stats ∅ = 0%Q.
Proof. reflexivity. Qed.

Lemma average_stats_nonempty (stats : gmap pystr Z) :
  stats ≠ ∅ →
  average_stats stats
  = (inject_Z (sum_values stats) / inject_Z (Z.of_nat (size stats)))%Q.
Proof.
  intros Hne. unfold average_stats.
  destruct (decide (size stats ≠ 0%nat)) as [_ | Hz]; [reflexivity |].
  exfalso. apply Hne, map_size_empty_iff.
  destruct (size stats); [reflexivity | exfalso; apply Hz; discriminate].
Qed.

Lemma Qlt_bool_iff (x y : Q) : Qlt_bool x y = true ↔ (x < y)%Q.
Proof.
  unfold Qlt_bool. rewrite negb_true_iff. split.
  - intros Hb. apply Qnot_le_lt. intros Hle.
    apply Qle_bool_iff in Hle. congruence.
  - intros Hlt. destruct (Qle_bool y x) eqn:Hb; [| reflexivity].
    apply Qle_bool_iff in Hb. exfalso. exact (Qlt_not_le _ _ Hlt Hb).
Qed.

Lemma devis_of_Pokeball (avg : Q) : (avg <= 50)%Q → devis_of avg = Pokeball.
Proof.
  intros Hle. unfold devis_of.
  apply Qle_bool_iff in Hle. rewrite Hle. reflexivity.
Qed.

Lemma Qle_bool_false (x y : Q) : (y < x)%Q → Qle_bool x y = false.
Proof.
  intros Hlt. destruct (Qle_bool x y) eqn:Hb; [| reflexivity].
  apply Qle_bool_iff in Hb. exfalso. exact (Qlt_not_le _ _ Hlt Hb).
Qed.

Lemma devis_of_Superball (avg : Q) :
  (50 < avg)%Q → (avg <= 100)%Q → devis_of avg = Superball.
Proof.
  intros Hlo Hhi. unfold devis_of.
  rewrite (Qle_bool_false _ _ Hlo).
  apply Qlt_bool_iff in Hlo. apply Qle_bool_iff in Hhi.
  rewrite Hlo, Hhi. reflexivity.
Qed.

Lemma devis_of_Hyperball (avg : Q) :
  (100 < avg)%Q → (avg <= 150)%Q → devis_of avg = Hyperball.
Proof.
  intros Hlo Hhi. unfold devis_of.
  assert (H50 : (50 < avg)%Q) by (eapply Qlt_trans; [| exact Hlo]; reflexivity).
  rewrite (Qle_bool_false _ _ H50), (Qle_bool_false _ _ Hlo).
  rewrite andb_false_r.
  apply Qlt_bool_iff in Hlo. apply Qle_bool_iff in Hhi.
  rewrite Hlo, Hhi. reflexivity.
Qed.

Lemma devis_of_Masterball (avg : Q) : (150 < avg)%Q → devis_of avg = Masterball.
Proof.
  intros Hlo. unfold devis_of.
  assert (H100 : (100 < avg)%Q) by (eapply Qlt_trans; [| exact Hlo]; reflexivity).
  assert (H50 : (50 < avg)%Q) by (eapply Qlt_trans; [| exact H100]; reflexivity).
  rewrite (Qle_bool_false _ _ H50), (Qle_bool_false _ _ H100),
    (Qle_bool_false _ _ Hlo).
  rewrite !andb_false_r. reflexivity.
Qed.

End Tier.

(** ** The table of the generations *)

Section Generations.
Context {U : UnicodeData}.

Lemma GENERTAIONS_URL_outside (generation : Z) :
  ¬ (1 ≤ generation ≤ 9) → GENERTAIONS_URL !! generation = None.
Proof.
  intros Hout. unfold GENERTAIONS_URL.
  rewrite !lookup_insert_ne by lia. apply lookup_empty.
Qed.

Lemma GENERTAIONS_URL_inside (generation : Z) :
  1 ≤ generation ≤ 9 → is_Some (GENERTAIONS_URL !! generation).
Proof.
  intros Hin.
  assert (Hcases : generation = 1 ∨ generation = 2 ∨ generation = 3
                   ∨ generation = 4 ∨ generation = 5 ∨ generation = 6
                   ∨ generation = 7 ∨ generation = 8 ∨ generation = 9) by lia.
  destruct_or!; subst generation; vm_compute; eauto.
Qed.

Lemma get_pokemons_invalid (generation : Z) (w : world) :
  ¬ (1 ≤ generation ≤ 9) →
  get_pokemons_from_generation generation w = (Raise ValueError_generation, w).
Proof.
  intros Hout. unfold get_pokemons_from_generation.
  rewrite (GENERTAIONS_URL_outside _ Hout). reflexivity.
Qed.

(** C8.  For a generation outside 1..9 the dataset build raises the
    [ValueError] of the generation check (InvalidGeneration) and leaves the
    world as it was: no URL has been requested, no file opened. *)
Theorem create_database_invalid_generation (generation : Z) (w : world) :
  ¬ (1 ≤ generation ≤ 9) →
  create_database generation w = (Raise ValueError_generation, w)
  ∧ kind_of ValueError_generation = InvalidGeneration
  ∧ requested (create_database generation w).2 = requested w.
Proof.
  intros Hout.
  assert (Hrun : create_database generation w = (Raise ValueError_generation, w)).
  { unfold create_database, mbind, M_bind.
    rewrite (get_pokemons_invalid _ _ Hout). reflexivity. }
  rewrite Hrun. auto.
Qed.

End Generations.

Lemma create_database_invalid_generation_witness :
  let w := Samples.start (Samples.site Samples.dracaufeu) in
  ¬ (1 ≤ 10 ≤ 9)
  ∧ create_database (U := basic_latin) 10 w = (Raise ValueError_generation, w).
Proof.
  split; [lia |].
  apply (create_database_invalid_generation (U := basic_latin) 10); lia.
Defined.

(** ** Searching a page *)

Section Search.

Lemma first_match_None (p : node → bool) (l : list node) :
  first_match p l = None ↔ ∀ n, n ∈ l → p n = false.
Proof.
  induction l as [| a l IH]; simpl.
  - split; [intros _ n Hn; inversion Hn | reflexivity].
  - destruct (p a) eqn:Hpa.
    + split; [discriminate |].
      intros Hall. specialize (Hall a (list_elem_of_here _ _)). congruence.
    + rewrite IH. split.
      * intros Hall n Hn. apply elem_of_cons in Hn as [-> | Hn]; auto.
      * intros Hall n Hn. apply Hall. by apply list_elem_of_further.
Qed.

Lemma first_match_Some (p : node → bool) (l : list node) (n : node) (after : list node) :
  first_match p l = Some (n, after) →
  p n = true ∧ ∃ before, l = before ++ n :: after ∧ ∀ m, m ∈ before → p m = false.
Proof.
  revert n after. induction l as [| a l IH]; simpl; intros n after Hf; [discriminate |].
  destruct (p a) eqn:Hpa.
  - injection Hf as <- <-. split; [exact Hpa |].
    exists []. split; [reflexivity |]. intros m Hm. inversion Hm.
  - destruct (IH _ _ Hf) as (Hpn & before & -> & Hbefore).
    split; [exact Hpn |]. exists (a :: before). split; [reflexivity |].
    intros m Hm. apply elem_of_cons in Hm as [-> | Hm]; auto.
Qed.

(** [soup.find] returns [None] exactly when no node of the page meets the
    criterion. *)
Lemma soup_find_None (p : node → bool) (html : list node) :
  soup_find p html = None ↔ ∀ n, n ∈ document html → p n = false.
Proof. apply first_match_None. Qed.

End Search.

(** ** The page parser *)

Section PageParser.
Context {U : UnicodeData}.

Lemma stat_row_entry (stats : gmap pystr Z) (row : node) :
  stat_row stats row
  = match stat_entry row with
    | None => Ok stats
    | Some e =>
        match entry_value e with
        | Some kv => Ok (set_stat stats kv)
        | None => Raise ValueError_int
        end
    end.
Proof.
  unfold stat_row, stat_entry, entry_value, set_stat.
  destruct (find stat_link row) as [a |]; simpl; [| reflexivity].
  destruct (find_all (named (py "td")) row) as [| c1 [| c2 cs]]; simpl;
    try reflexivity.
  destruct (py_int (strip (text c2))); reflexivity.
Qed.

Lemma for_each_stat_row (rows : list node) (stats : gmap pystr Z) :
  for_each stat_row rows stats
  = match mapM entry_value (omap stat_entry rows) with
    | Some kvs => Ok (foldl set_stat stats kvs)
    | None => Raise ValueError_int
    end.
Proof.
  revert stats. induction rows as [| row rows IH]; intros stats; [reflexivity |].
  cbn [for_each]. rewrite stat_row_entry.
  change (omap stat_entry (row :: rows))
    with (match stat_entry row with
          | Some e => e :: omap stat_entry rows
          | None => omap stat_entry rows
          end).
  destruct (stat_entry row) as [e |]; [| apply IH].
  cbn [mapM]. destruct (entry_value e) as [kv |]; [| reflexivity].
  cbn. rewrite IH.
  destruct (mapM entry_value (omap stat_entry rows)); reflexivity.
Qed.

End PageParser.

Section PageTheorems.
Context {U : UnicodeData}.

Lemma parse_stats_absent (html : list node) :
  soup_find stats_anchor html = None → parse_stats html = Ok ∅.
Proof. intros Hnone. unfold parse_stats. rewrite Hnone. reflexivity. Qed.

Lemma parse_stats_table (html : list node) (anchor table : node) (after rest : list node) :
  soup_find stats_anchor html = Some (anchor, after) →
  find_next standard_table after = Some (table, rest) →
  parse_stats html
  = match mapM entry_value (omap stat_entry (find_all (named (py "tr")) table)) with
    | Some kvs => Ok (foldl set_stat ∅ kvs)
    | None => Raise ValueError_int
    end.
Proof.
  intros Hanchor Htable. unfold parse_stats. rewrite Hanchor, Htable.
  apply for_each_stat_row.
Qed.

(** What [parse_html] returns, block by block. *)
Lemma parse_html_Ok (html : list node) (r : pokemon_info) :
  parse_html html = Ok r ↔
  ∃ h1 after t hgt wgt st,
    soup_find (named (py "h1")) html = Some (h1, after)
    ∧ parse_types html = Ok (Some t)
    ∧ labelled_text (py "Taille") html = Ok hgt
    ∧ labelled_text (py "Poids") html = Ok wgt
    ∧ parse_stats html = Ok st
    ∧ r = {| name := strip (text h1); types := t; height := hgt;
             weight := wgt; stats := st |}.
Proof.
  unfold parse_html.
  destruct (soup_find (named (py "h1")) html) as [[h1 after] |]; simpl.
  2: { split; [discriminate | intros (? & ? & ? & ? & ? & ? & ? & _); discriminate]. }
  destruct (parse_types html) as [[t |] | e]; simpl;
    destruct (labelled_text (py "Taille") html) as [hgt | e1]; simpl;
    try destruct (labelled_text (py "Poids") html) as [wgt | e2]; simpl;
    try destruct (parse_stats html) as [st | e3]; simpl;
    (split;
     [ intros Hr; try discriminate; injection Hr as <-;
       by repeat eexists
     | intros (h' & a' & t' & hgt' & wgt' & st' & Hh & Ht & Hhg & Hw & Hs & ->);
       congruence ]).
Qed.

Lemma labelled_text_missing (s : pystr) (html : list node) :
  soup_find (label s) html = None → labelled_text s html = Raise AttributeError.
Proof. intros Hnone. unfold labelled_text. rewrite Hnone. reflexivity. Qed.

Lemma labelled_text_error (s : pystr) (html : list node) (e : exn) :
  labelled_text s html = Raise e → e = AttributeError.
Proof.
  unfold labelled_text.
  destruct (soup_find (label s) html) as [[th after] |]; simpl; [| congruence].
  destruct (find_next (named (py "td")) after) as [[td rest] |]; simpl; congruence.
Qed.

Lemma parse_types_error (html : list node) (e : exn) :
  parse_types html = Raise e → e = AttributeError.
Proof.
  unfold parse_types.
  destruct (soup_find types_label html) as [[th after] |]; [| discriminate].
  destruct (find_next (named (py "td")) after) as [[td rest] |]; simpl; congruence.
Qed.

Lemma foldl_set_stat_lookup (kvs : list (pystr * Z)) (m : gmap pystr Z) (k : pystr) (v : Z) :
  foldl set_stat m kvs !! k = Some v → m !! k = Some v ∨ (k, v) ∈ kvs.
Proof.
  revert m. induction kvs as [| [k' v'] kvs IH]; intros m; simpl; [auto |].
  intros Hl. apply IH in Hl as [Hl | Hl]; [| right; by apply list_elem_of_further].
  unfold set_stat in Hl. simpl in Hl.
  destruct (decide (k' = k)) as [<- | Hne].
  - rewrite lookup_insert_eq in Hl. injection Hl as <-. right. apply list_elem_of_here.
  - rewrite lookup_insert_ne in Hl by exact Hne. by left.
Qed.

Lemma foldl_set_stat_last (kvs : list (pystr * Z)) (m : gmap pystr Z) (k : pystr) (v : Z) :
  foldl set_stat m (kvs ++ [(k, v)]) !! k = Some v.
Proof. rewrite foldl_snoc. apply lookup_insert_eq. Qed.

(** C3 (the code does otherwise).  On a page where no [th] has the string
    "Types" or "Type", [parse_html] returns no record: the variable [types]
    is never assigned and the [return] raises [UnboundLocalError] when the
    heading, the height, the weight and the statistics have been read.  The
    sample page without a row of types is such a page. *)
Theorem parse_html_without_types_label :
  (∀ html : list node,
     (∀ n, n ∈ document html → types_label n = false) →
     (∀ r, parse_html html ≠ Ok r)
     ∧ (∀ h1 after hgt wgt st,
          soup_find (named (py "h1")) html = Some (h1, after) →
          labelled_text (py "Taille") html = Ok hgt →
          labelled_text (py "Poids") html = Ok wgt →
          parse_stats html = Ok st →
          parse_html html = Raise UnboundLocalError))
  ∧ (∀ n, n ∈ document Samples.mew_without_types → types_label n = false)
  ∧ parse_html Samples.mew_without_types = Raise UnboundLocalError.
Proof.
  split; [| split].
  - intros html Hnone. apply soup_find_None in Hnone.
    assert (Htypes : parse_types html = Ok None).
    { unfold parse_types. rewrite Hnone. reflexivity. }
    split.
    + intros r Hr. apply parse_html_Ok in Hr
        as (? & ? & t & ? & ? & ? & _ & Ht & _). congruence.
    + intros h1 after hgt wgt st Hh Hhgt Hwgt Hst.
      unfold parse_html. rewrite Hh. simpl.
      rewrite Htypes. simpl. rewrite Hhgt. simpl. rewrite Hwgt. simpl.
      rewrite Hst. reflexivity.
  - apply soup_find_None. vm_compute. reflexivity.
  - vm_compute. reflexivity.
Qed.


(** C9.  When the [td] that follows the label of the types holds links
    whose titles are "Feu (type)" and "Vol (type)", in this order, the
    record [parse_html] returns has the types "Feu-Vol".  In general the
    field joins with a hyphen the titles of the links of that cell, each
    with " (type)" removed. *)
Theorem parse_html_types (html : list node) (th td : node) (after rest : list node) :
  soup_find types_label html = Some (th, after) →
  find_next (named (py "td")) after = Some (td, rest) →
  parse_types html = Ok (Some (join_types td))
  ∧ (∀ r, parse_html html = Ok r →
       types r = join (py "-") (map (replace (py " (type)") []) (link_titles td)))
  ∧ (link_titles td = [py "Feu (type)"; py "Vol (type)"] →
     ∀ r, parse_html html = Ok r → types r = py "Feu-Vol").
Proof.
  intros Hth Htd.
  assert (Htypes : parse_types html = Ok (Some (join_types td))).
  { unfold parse_types. rewrite Hth. simpl. rewrite Htd. reflexivity. }
  assert (Hfield : ∀ r, parse_html html = Ok r → types r = join_types td).
  { intros r Hr. apply parse_html_Ok in Hr
      as (? & ? & t & ? & ? & ? & _ & Ht & _ & _ & _ & ->).
    simpl. congruence. }
  split; [exact Htypes |]. split; [exact Hfield |].
  intros Htitles r Hr. rewrite (Hfield r Hr).
  unfold join_types. rewrite Htitles. reflexivity.
Qed.


End PageTheorems.

Lemma parse_html_types_witness :
  ∃ r, parse_html (U := basic_latin) Samples.dracaufeu = Ok r
       ∧ types r = py "Feu-Vol".
Proof.
  eexists. split; [vm_compute; reflexivity |].
  destruct (soup_find types_label Samples.dracaufeu) as [[th after] |] eqn:Hth;
    [| vm_compute in Hth; discriminate].
  destruct (find_next (named (py "td")) after) as [[td rest] |] eqn:Htd;
    [| vm_compute in Hth; injection Hth as <- <-; vm_compute in Htd; discriminate].
  apply (parse_html_types (U := basic_latin) Samples.dracaufeu th td after rest Hth Htd).
  - vm_compute in Hth. injection Hth as <- <-.
    vm_compute in Htd. injection Htd as <- <-.
    vm_compute. reflexivity.
  - vm_compute. reflexivity.
Defined.




(** ** The listing parser *)

Section Listing.
Context {U : UnicodeData}.

Lemma find_Some (p : node → bool) (t n : node) : find p t = Some n → p n = true.
Proof.
  unfold find. destruct (first_match p (descendants t)) as [[m after] |] eqn:Hm;
    simpl; [| discriminate].
  intros [= <-]. by apply first_match_Some in Hm as [? _].
Qed.

Lemma titled_link_attr (a : node) :
  titled_link a = true → is_Some (attr (py "title") a).
Proof.
  unfold titled_link, has_attr. intros Ht.
  apply andb_true_iff in Ht as [_ Ht]. by apply bool_decide_eq_true in Ht.
Qed.

Lemma listing_row_name (pokemon_list : list pystr) (row : node) :
  listing_row pokemon_list row
  = pokemon_list ++ match row_name row with Some n => [n] | None => [] end.
Proof.
  unfold listing_row, row_name.
  destruct (find_all (named (py "td")) row) as [| c1 [| c2 [| c3 cs]]]; simpl;
    try (symmetry; apply app_nil_r).
  destruct (find titled_link c3) as [a |]; simpl; [| symmetry; apply app_nil_r].
  destruct (attr (py "title") a); simpl; [reflexivity | symmetry; apply app_nil_r].
Qed.

Lemma foldl_listing_row (rows : list node) (pokemon_list : list pystr) :
  foldl listing_row pokemon_list rows = pokemon_list ++ omap row_name rows.
Proof.
  revert pokemon_list. induction rows as [| row rows IH]; intros pokemon_list.
  - simpl. symmetry. apply app_nil_r.
  - cbn [foldl]. rewrite IH, listing_row_name.
    change (omap row_name (row :: rows))
      with (match row_name row with
            | Some n => n :: omap row_name rows
            | None => omap row_name rows
            end).
    destruct (row_name row); simpl; [| by rewrite app_nil_r].
    by rewrite <- app_assoc.
Qed.

Lemma parse_listing_Ok (html : list node) (names : list pystr) :
  parse_listing html = Ok names ↔
  ∃ table after,
    soup_find standard_table html = Some (table, after)
    ∧ names = map capitalize (omap row_name (find_all (named (py "tr")) table)).
Proof.
  unfold parse_listing.
  destruct (soup_find standard_table html) as [[table after] |].
  - rewrite foldl_listing_row. simpl. split.
    + intros [= <-]. by exists table, after.
    + intros (t & a & [= <- <-] & ->). reflexivity.
  - split; [discriminate | intros (? & ? & ? & _); discriminate].
Qed.

Lemma get_pokemons_200 (generation : Z) (page : pystr) (html : list node) (w : world) :
  GENERTAIONS_URL !! generation = Some page →
  network w (POKEPEDIA ++ page)
  = Some {| status_code := 200; response_text := html |} →
  get_pokemons_from_generation generation w
  = (parse_listing html, add_request (POKEPEDIA ++ page) w).
Proof.
  intros Hpage Hnet. unfold get_pokemons_from_generation.
  rewrite Hpage. unfold mbind, M_bind, requests_get. rewrite Hnet. reflexivity.
Qed.

(** C5.  With [table] the first table of class [tableaustandard] of a
    listing page, the parser returns, in the order of the rows, the
    capitalized names of the rows that have three data cells or more and a
    titled link in the third: the name is the stripped title of that link,
    and capitalizing puts its first character in title case.  A row with
    fewer than three data cells gives nothing and raises nothing; when no
    row gives a name the list is empty; two rows without name followed by
    three rows with a name give exactly the three names.  This is the
    list [get_pokemons_from_generation] returns when the listing page of
    the generation is answered with status 200. *)
Theorem parse_listing_names (html : list node) (table : node) (after : list node) :
  soup_find standard_table html = Some (table, after) →
  let rows := find_all (named (py "tr")) table in
  parse_listing html = Ok (map capitalize (omap row_name rows))
  ∧ (∀ row, (length (find_all (named (py "td")) row) < 3)%nat → row_name row = None)
  ∧ (∀ row c1 c2 c3 cs a,
       find_all (named (py "td")) row = c1 :: c2 :: c3 :: cs →
       find titled_link c3 = Some a →
       ∃ title, attr (py "title") a = Some title
                ∧ row_name row = Some (strip title))
  ∧ (∀ c r, ∃ r', capitalize (c :: r) = to_title_full c ++ r')
  ∧ (omap row_name rows = [] → parse_listing html = Ok [])
  ∧ (∀ h1 h2 v1 v2 v3 n1 n2 n3,
       rows = [h1; h2; v1; v2; v3] →
       (length (find_all (named (py "td")) h1) < 3)%nat →
       (length (find_all (named (py "td")) h2) < 3)%nat →
       row_name v1 = Some n1 → row_name v2 = Some n2 → row_name v3 = Some n3 →
       parse_listing html = Ok [capitalize n1; capitalize n2; capitalize n3])
  ∧ (∀ generation page w,
       GENERTAIONS_URL !! generation = Some page →
       network w (POKEPEDIA ++ page)
       = Some {| status_code := 200; response_text := html |} →
       (get_pokemons_from_generation generation w).1
       = Ok (map capitalize (omap row_name rows))).
Proof.
  intros Htable rows.
  assert (Hparse : parse_listing html = Ok (map capitalize (omap row_name rows))).
  { apply parse_listing_Ok. by exists table, after. }
  assert (Hshort : ∀ row, (length (find_all (named (py "td")) row) < 3)%nat →
                          row_name row = None).
  { intros row Hlen. unfold row_name.
    destruct (find_all (named (py "td")) row) as [| c1 [| c2 [| c3 cs]]];
      simpl in *; try reflexivity. lia. }
  split; [exact Hparse |]. split; [exact Hshort |].
  split; [| split; [| split; [| split]]].
  5: { intros generation page w Hpage Hnet.
       rewrite (get_pokemons_200 _ _ _ _ Hpage Hnet). exact Hparse. }
  - intros row c1 c2 c3 cs a Hcells Ha. unfold row_name.
    rewrite Hcells. simpl. rewrite Ha. simpl.
    destruct (titled_link_attr a (find_Some _ _ _ Ha)) as [title Htitle].
    exists title. rewrite Htitle. auto.
  - intros c r. exists (lower_rest [c] r). reflexivity.
  - intros Hnone. rewrite Hparse, Hnone. reflexivity.
  - intros h1 h2 v1 v2 v3 n1 n2 n3 Hrows Hh1 Hh2 Hv1 Hv2 Hv3.
    rewrite Hparse, Hrows.
    unfold omap. cbn [list_omap].
    rewrite (Hshort _ Hh1), (Hshort _ Hh2), Hv1, Hv2, Hv3. reflexivity.
Qed.

End Listing.

Lemma parse_listing_names_witness :
  ∃ table after,
    soup_find standard_table Samples.listing3 = Some (table, after)
    ∧ parse_listing (U := basic_latin) Samples.listing3
      = Ok [py "Bulbizarre"; py "Herbizarre"; py "Porygon-z"].
Proof.
  destruct (soup_find standard_table Samples.listing3)
    as [[table after] |] eqn:Htable; [| vm_compute in Htable; discriminate].
  exists table, after. split; [reflexivity |].
  destruct (parse_listing_names (U := basic_latin) Samples.listing3 table after Htable)
    as (Hparse & _).
  rewrite Hparse.
  vm_compute in Htable. injection Htable as <- <-.
  vm_compute. reflexivity.
Defined.

(** ** Capitalized names *)

Section Capitalize.

Lemma get_pokemons_Ok {U : UnicodeData} (generation : Z) (w w' : world) (names : list pystr) :
  get_pokemons_from_generation generation w = (Ok names, w') →
  ∃ page html,
    GENERTAIONS_URL !! generation = Some page
    ∧ network w (POKEPEDIA ++ page)
      = Some {| status_code := 200; response_text := html |}
    ∧ parse_listing html = Ok names.
Proof.
  unfold get_pokemons_from_generation.
  destruct (GENERTAIONS_URL !! generation) as [page |]; [| discriminate].
  unfold mbind, M_bind, requests_get, raise, lift.
  destruct (network w (POKEPEDIA ++ page)) as [[code html] |] eqn:Hnet;
    [| discriminate].
  cbn [status_code response_text].
  destruct (code =? 200) eqn:Hcode; [| discriminate].
  apply Z.eqb_eq in Hcode as ->.
  intros Hrun. apply (f_equal fst) in Hrun. by exists page, html.
Qed.

Lemma basic_latin_lower_at (before after : pystr) (c : char) :
  ∃ y, lower_at (U := basic_latin) before c after = [y]
       ∧ ((65 ≤ c ≤ 90)%N → y ≠ c).
Proof.
  unfold lower_at. destruct (c =? 931)%N eqn:Hsigma.
  - apply N.eqb_eq in Hsigma as ->. eexists. split; [reflexivity | lia].
  - simpl. destruct ((65 <=? c)%N && (c <=? 90)%N) eqn:Hup.
    + eexists. split; [reflexivity | lia].
    + exists c. split; [reflexivity |].
      intros [Hlo Hhi]. apply N.leb_le in Hlo, Hhi.
      rewrite Hlo, Hhi in Hup. discriminate.
Qed.

Lemma basic_latin_lower_rest_fixed (r before : pystr) :
  lower_rest (U := basic_latin) before r = r →
  ∀ x, x ∈ r → ¬ (65 ≤ x ≤ 90)%N.
Proof.
  revert before. induction r as [| c r IH]; intros before Heq x Hx;
    [inversion Hx |].
  cbn [lower_rest] in Heq.
  destruct (basic_latin_lower_at before r c) as (y & Hy & Hne).
  rewrite Hy in Heq. injection Heq as Hyc Hrest.
  apply elem_of_cons in Hx as [-> | Hx].
  - intros Hup. exact (Hne Hup Hyc).
  - exact (IH _ Hrest x Hx).
Qed.

Lemma basic_latin_capitalize_changes (c : char) (r : pystr) (x : char) :
  x ∈ r → (65 ≤ x ≤ 90)%N → capitalize (U := basic_latin) (c :: r) ≠ c :: r.
Proof.
  intros Hx Hup Heq. unfold capitalize in Heq.
  assert (Htitle : ∃ y, to_title_full (UnicodeData := basic_latin) c = [y]).
  { simpl. destruct ((97 <=? c)%N && (c <=? 122)%N); eauto. }
  destruct Htitle as [y Hy]. rewrite Hy in Heq. injection Heq as _ Hrest.
  exact (basic_latin_lower_rest_fixed _ _ Hrest x Hx Hup).
Qed.

(** C10.  Every name [get_pokemons_from_generation] returns is the
    capitalized form of the title found in a row of the listing: after the
    title-case form of the first character come the lower-case forms of all
    the others.  On Basic Latin a title with a capital letter after its
    first character is therefore not returned as written: "Porygon-Z" comes
    back as "Porygon-z". *)
Theorem listed_names_lowercased :
  (∀ (U : UnicodeData) generation w w' names,
     get_pokemons_from_generation generation w = (Ok names, w') →
     ∃ page html table after,
       network w (POKEPEDIA ++ page)
       = Some {| status_code := 200; response_text := html |}
       ∧ soup_find standard_table html = Some (table, after)
       ∧ Forall2
           (fun title nm =>
              match title with
              | [] => nm = []
              | c :: r => nm = to_title_full c ++ lower_rest [c] r
              end)
           (omap row_name (find_all (named (py "tr")) table)) names)
  ∧ (∀ c r x, x ∈ r → (65 ≤ x ≤ 90)%N →
       capitalize (U := basic_latin) (c :: r) ≠ c :: r)
  ∧ parse_listing (U := basic_latin)
      (Samples.listing [Samples.listed "0474" "Porygon-Z"])
    = Ok [py "Porygon-z"].
Proof.
  split; [| split].
  - intros U generation w w' names Hrun.
    apply get_pokemons_Ok in Hrun as (page & html & _ & Hnet & Hparse).
    apply parse_listing_Ok in Hparse as (table & after & Htable & ->).
    exists page, html, table, after. split; [exact Hnet |]. split; [exact Htable |].
    apply Forall2_fmap_r, Forall_Forall2_diag, Forall_forall.
    intros [| c r] _; reflexivity.
  - exact basic_latin_capitalize_changes.
  - vm_compute. reflexivity.
Qed.

End Capitalize.

(** ** The dataset loop *)

Section Dataset.
Context {U : UnicodeData}.

Lemma get_html_pokemon_run (pokemon : pystr) (w : world) :
  get_html_pokemon pokemon w
  = (fetch_page (network w) pokemon, add_request (POKEPEDIA ++ pokemon) w).
Proof.
  unfold get_html_pokemon, fetch_page, mbind, M_bind, requests_get.
  destruct (network w (POKEPEDIA ++ pokemon)) as [r |]; [| reflexivity].
  destruct (status_code r =? 200); [reflexivity |].
  destruct (status_code r =? 404); reflexivity.
Qed.

Lemma try_write_pokemon (file pokemon : pystr) (w : world) :
  try_except (write_pokemon file pokemon)
    (fun e => print (Error_writing pokemon e)) w
  = (Ok tt, after_pokemon file pokemon w).
Proof.
  unfold try_except, write_pokemon, after_pokemon, mbind, M_bind.
  rewrite get_html_pokemon_run.
  destruct (fetch_page (network w) pokemon) as [html | e]; [| reflexivity].
  unfold print, lift.
  destruct (parse_html html) as [info | e]; reflexivity.
Qed.

Lemma write_pokemons_cons (file pokemon : pystr) (rest : list pystr) (w : world) :
  write_pokemons file (pokemon :: rest) w
  = write_pokemons file rest (after_pokemon file pokemon w).
Proof.
  cbn [write_pokemons]. unfold mbind at 1. unfold M_bind.
  rewrite try_write_pokemon. reflexivity.
Qed.

(** No exception leaves the loop. *)
Lemma write_pokemons_total (file : pystr) (roster : list pystr) (w : world) :
  ∃ w', write_pokemons file roster w = (Ok tt, w').
Proof.
  revert w. induction roster as [| pokemon rest IH]; intros w.
  - by exists w.
  - rewrite write_pokemons_cons. apply IH.
Qed.

Lemma after_pokemon_network (file pokemon : pystr) (w : world) :
  network (after_pokemon file pokemon w) = network w.
Proof.
  unfold after_pokemon.
  destruct (fetch_page (network w) pokemon) as [html | e]; [| reflexivity].
  destruct (parse_html html); reflexivity.
Qed.

Lemma after_pokemon_requested (file pokemon : pystr) (w : world) :
  requested (after_pokemon file pokemon w) = requested w ++ [POKEPEDIA ++ pokemon].
Proof.
  unfold after_pokemon.
  destruct (fetch_page (network w) pokemon) as [html | e]; [| reflexivity].
  destruct (parse_html html); reflexivity.
Qed.

Lemma after_pokemon_files (file pokemon : pystr) (w : world) (content : list csv_line) :
  files w !! file = Some content →
  files (after_pokemon file pokemon w) !! file
  = Some (content ++ rows_written (network w) [pokemon])
  ∧ ∀ x, <[file := x]> (files (after_pokemon file pokemon w)) = <[file := x]> (files w).
Proof.
  intros Hfile.
  unfold after_pokemon, rows_written, row_if_ok, pokemon_row. cbn [omap list_omap].
  destruct (fetch_page (network w) pokemon) as [html | e]; simpl.
  2: { rewrite app_nil_r. auto. }
  destruct (parse_html html) as [info | e]; simpl.
  2: { rewrite app_nil_r. auto. }
  split.
  - rewrite lookup_alter_eq, Hfile. reflexivity.
  - intros x. apply map_eq. intros k.
    destruct (decide (file = k)) as [<- | Hne].
    + by rewrite !lookup_insert_eq.
    + by rewrite !lookup_insert_ne, lookup_alter_ne.
Qed.

Lemma rows_written_cons (net : pystr → option response) (pokemon : pystr) (rest : list pystr) :
  rows_written net (pokemon :: rest)
  = rows_written net [pokemon] ++ rows_written net rest.
Proof.
  unfold rows_written. cbn [omap list_omap].
  destruct (row_if_ok net pokemon); reflexivity.
Qed.

Lemma write_pokemons_run (file : pystr) (roster : list pystr) (w : world) (content : list csv_line) :
  files w !! file = Some content →
  ∃ w', write_pokemons file roster w = (Ok tt, w')
        ∧ network w' = network w
        ∧ files w' = <[file := content ++ rows_written (network w) roster]> (files w)
        ∧ requested w' = requested w ++ map (app POKEPEDIA) roster.
Proof.
  revert w content. induction roster as [| pokemon rest IH]; intros w content Hfile.
  - exists w. rewrite !app_nil_r. repeat split.
    symmetry. by apply insert_id.
  - rewrite write_pokemons_cons.
    destruct (after_pokemon_files file pokemon w content Hfile) as [Hnew Hins].
    destruct (IH _ _ Hnew) as (w' & Hrun & Hnet & Hfiles & Hreq).
    exists w'. split; [exact Hrun |].
    rewrite after_pokemon_network in Hnet, Hfiles.
    rewrite after_pokemon_requested in Hreq.
    split; [exact Hnet |]. split.
    + rewrite Hfiles, Hins, <- app_assoc, <- rows_written_cons. reflexivity.
    + rewrite Hreq, <- app_assoc. reflexivity.
Qed.

Lemma get_pokemons_network (generation : Z) (w w1 : world) (r : result (list pystr)) :
  get_pokemons_from_generation generation w = (r, w1) →
  network w1 = network w ∧ files w1 = files w.
Proof.
  unfold get_pokemons_from_generation.
  destruct (GENERTAIONS_URL !! generation) as [page |].
  - unfold mbind, M_bind, requests_get, raise, lift.
    destruct (network w (POKEPEDIA ++ page)) as [resp |].
    + destruct (status_code resp =? 200); intros [= _ <-]; auto.
    + intros [= _ <-]; auto.
  - intros [= _ <-]; auto.
Qed.

Lemma create_database_run (generation : Z) (w w1 : world) (roster : list pystr) :
  get_pokemons_from_generation generation w = (Ok roster, w1) →
  ∃ w2, create_database generation w = (Ok tt, w2)
        ∧ files w2 !! csv_path generation
          = Some (Header fieldnames :: rows_written (network w) roster)
        ∧ requested w2 = requested w1 ++ map (app POKEPEDIA) roster.
Proof.
  intros Hroster.
  destruct (get_pokemons_network _ _ _ _ Hroster) as [Hnet _].
  unfold create_database, mbind, M_bind. rewrite Hroster.
  unfold open_w, write_line.
  set (w0 := put_files _ (put_files _ w1)).
  assert (Hfile : files w0 !! csv_path generation = Some [Header fieldnames]).
  { unfold w0. simpl. rewrite lookup_alter_eq, lookup_insert_eq. reflexivity. }
  destruct (write_pokemons_run (csv_path generation) roster w0 _ Hfile)
    as (w2 & Hrun & Hnet2 & Hfiles & Hreq).
  exists w2. split; [exact Hrun |]. split.
  - rewrite Hfiles, lookup_insert_eq. unfold w0. simpl. rewrite Hnet. reflexivity.
  - exact Hreq.
Qed.

Lemma create_database_raise (generation : Z) (w w1 : world) (e : exn) :
  get_pokemons_from_generation generation w = (Raise e, w1) →
  create_database generation w = (Raise e, w1).
Proof.
  intros Hroster. unfold create_database, mbind, M_bind.
  rewrite Hroster. reflexivity.
Qed.

End Dataset.

Section Counting.
Context {A B : Type} (f : A → option B).

Lemma omap_length_all (l : list A) :
  (∀ j y, l !! j = Some y → is_Some (f y)) → length (omap f l) = length l.
Proof.
  induction l as [| a l IH]; intros Hall; [reflexivity |].
  cbn [omap list_omap].
  destruct (Hall 0%nat a eq_refl) as [b Hb]. fold (omap f l). rewrite Hb. simpl.
  f_equal. apply IH. intros j y Hj. exact (Hall (S j) y Hj).
Qed.

Lemma omap_length_all_but_one (l : list A) (i : nat) (x : A) :
  l !! i = Some x → f x = None →
  (∀ j y, j ≠ i → l !! j = Some y → is_Some (f y)) →
  length (omap f l) = pred (length l).
Proof.
  revert i. induction l as [| a l IH]; intros i Hi Hx Hothers; [discriminate |].
  cbn [omap list_omap]. fold (omap f l).
  destruct i as [| i].
  - injection Hi as ->. rewrite Hx. simpl.
    apply omap_length_all. intros j y Hj. apply (Hothers (S j) y); [lia | exact Hj].
  - destruct (Hothers 0%nat a) as [b Hb]; [lia | reflexivity |].
    rewrite Hb. simpl. rewrite (IH i Hi Hx).
    + apply lookup_lt_Some in Hi. simpl in *. lia.
    + intros j y Hne Hj. apply (Hothers (S j) y); [lia | exact Hj].
Qed.

End Counting.

Section DatasetTheorems.
Context {U : UnicodeData}.


(** C6.  On a page without [th] of string "Taille", or without [th] of
    string "Poids", [parse_html] raises [AttributeError].  When this page
    is the one of a member of the roster, the loop of [create_database]
    catches the exception, writes no row for the member and goes on with
    the rest of the roster; [get_pokemon] on the same page lets the
    exception through to its caller. *)
Theorem missing_height_or_weight (html : list node) :
  (∀ n, n ∈ document html → label (py "Taille") n = false)
  ∨ (∀ n, n ∈ document html → label (py "Poids") n = false) →
  parse_html html = Raise AttributeError
  ∧ (∀ pokemon w,
       network w (POKEPEDIA ++ pokemon)
       = Some {| status_code := 200; response_text := html |} →
       (get_pokemon pokemon w).1 = Raise AttributeError
       ∧ ∀ file rest,
           write_pokemons file (pokemon :: rest) w
           = write_pokemons file rest
               (add_line (Error_writing pokemon AttributeError)
                  (add_line (Fetching pokemon)
                     (add_request (POKEPEDIA ++ pokemon) w)))
           ∧ ∃ w', write_pokemons file (pokemon :: rest) w = (Ok tt, w')).
Proof.
  intros Hmissing.
  assert (Hparse : parse_html html = Raise AttributeError).
  { unfold parse_html.
    destruct (soup_find (named (py "h1")) html) as [[h1 after] |]; [| reflexivity].
    simpl.
    destruct (parse_types html) as [t | e] eqn:Htypes; simpl.
    2: { by rewrite (parse_types_error _ _ Htypes). }
    destruct Hmissing as [Hnone | Hnone]; apply soup_find_None in Hnone.
    - rewrite (labelled_text_missing _ _ Hnone). reflexivity.
    - destruct (labelled_text (py "Taille") html) as [hgt | e] eqn:Hhgt; simpl.
      + rewrite (labelled_text_missing _ _ Hnone). reflexivity.
      + by rewrite (labelled_text_error _ _ _ Hhgt). }
  split; [exact Hparse |].
  intros pokemon w Hnet.
  assert (Hfetch : fetch_page (network w) pokemon = Ok html).
  { unfold fetch_page. rewrite Hnet. reflexivity. }
  split.
  - unfold get_pokemon, mbind, M_bind. rewrite get_html_pokemon_run, Hfetch.
    unfold lift. rewrite Hparse. reflexivity.
  - intros file rest. split; [| apply write_pokemons_total].
    rewrite write_pokemons_cons. unfold after_pokemon.
    rewrite Hfetch, Hparse. reflexivity.
Qed.

End DatasetTheorems.

Lemma missing_height_or_weight_witness :
  parse_html (U := basic_latin) Samples.no_height = Raise AttributeError.
Proof.
  apply (missing_height_or_weight (U := basic_latin) Samples.no_height).
  left. apply soup_find_None. vm_compute. reflexivity.
Defined.


(** ** The tier of a written row *)


(** ** Fetching *)

Section Fetching.
Context {U : UnicodeData}.

(** X1.  [get_html_pokemon] asks the site once, for the address made of
    [POKEPEDIA] and the name as given, and touches nothing else.  It returns
    the page exactly when the answer has status 200; it raises the
    [ValueError] of the missing page exactly on status 404, the [Exception]
    carrying the status code on every other status, and lets the exception
    of [requests.get] through. *)
Theorem get_html_pokemon_outcome (pokemon_name : pystr) (w : world) :
  let url := POKEPEDIA ++ pokemon_name in
  let run := get_html_pokemon pokemon_name w in
  run.2 = add_request url w
  ∧ (∀ html, run.1 = Ok html ↔
       network w url = Some {| status_code := 200; response_text := html |})
  ∧ (run.1 = Raise ValueError_404 ↔
       ∃ r, network w url = Some r ∧ status_code r = 404)
  ∧ (∀ code, run.1 = Raise (Exception_status code) ↔
       ∃ r, network w url = Some r ∧ status_code r = code
            ∧ code ≠ 200 ∧ code ≠ 404)
  ∧ (run.1 = Raise RequestException ↔ network w url = None).
Proof.
  intros url run. unfold run. rewrite get_html_pokemon_run. fold url.
  cbn [fst snd]. unfold fetch_page. fold url.
  split; [reflexivity |].
  destruct (network w url) as [[code html] |]; cbn [status_code response_text].
  2: { repeat split; try discriminate; try (intros (r & Hr & _); discriminate);
         intros ? ; try discriminate.
       all: try (intros (r & Hr & _); discriminate). }
  destruct (Z.eqb_spec code 200) as [-> | H200].
  { split; [| split; [| split]].
    - intros html'. split; [intros [= ->]; reflexivity | intros [= ->]; reflexivity].
    - split; [discriminate | intros (r & [= <-] & Hr); simpl in Hr; lia].
    - intros c. split; [discriminate |].
      intros (r & [= <-] & Hr & Hne & _). simpl in Hr. congruence.
    - split; discriminate. }
  destruct (Z.eqb_spec code 404) as [-> | H404].
  { split; [| split; [| split]].
    - intros html'. split; [discriminate | intros [= ? _]; lia].
    - split; [intros _; eexists; split; reflexivity |]. reflexivity.
    - intros c. split; [discriminate |].
      intros (r & [= <-] & Hr & _ & Hne). simpl in Hr. congruence.
    - split; discriminate. }
  split; [| split; [| split]].
  - intros html'. split; [discriminate | intros [= ? _]; lia].
  - split; [discriminate | intros (r & [= <-] & Hr); simpl in Hr; lia].
  - intros c. split.
    + intros [= <-]. eexists. split; [reflexivity |]. simpl. auto.
    + intros (r & [= <-] & Hr & _). simpl in Hr. by rewrite Hr.
  - split; discriminate.
Qed.

Lemma GENERTAIONS_URL_domain (generation : Z) :
  is_Some (GENERTAIONS_URL !! generation) ↔ 1 ≤ generation ≤ 9.
Proof.
  split.
  - intros Hsome. destruct (decide (1 ≤ generation ≤ 9)) as [Hin | Hout]; [exact Hin |].
    rewrite (GENERTAIONS_URL_outside _ Hout) in Hsome. by destruct Hsome.
  - apply GENERTAIONS_URL_inside.
Qed.

Lemma GENERTAIONS_URL_injective (g1 g2 : Z) (page : pystr) :
  GENERTAIONS_URL !! g1 = Some page → GENERTAIONS_URL !! g2 = Some page → g1 = g2.
Proof.
  intros H1 H2.
  assert (Hin1 : 1 ≤ g1 ≤ 9) by (apply GENERTAIONS_URL_domain; eauto).
  assert (Hin2 : 1 ≤ g2 ≤ 9) by (apply GENERTAIONS_URL_domain; eauto).
  assert (Hc1 : g1 = 1 ∨ g1 = 2 ∨ g1 = 3 ∨ g1 = 4 ∨ g1 = 5 ∨ g1 = 6
                ∨ g1 = 7 ∨ g1 = 8 ∨ g1 = 9) by lia.
  assert (Hc2 : g2 = 1 ∨ g2 = 2 ∨ g2 = 3 ∨ g2 = 4 ∨ g2 = 5 ∨ g2 = 6
                ∨ g2 = 7 ∨ g2 = 8 ∨ g2 = 9) by lia.
  destruct_or!; subst g1 g2; try reflexivity;
    vm_compute in H1; vm_compute in H2; congruence.
Qed.

Lemma get_pokemons_quiet (generation : Z) (w : world) :
  console (get_pokemons_from_generation generation w).2 = console w
  ∧ files (get_pokemons_from_generation generation w).2 = files w.
Proof.
  unfold get_pokemons_from_generation.
  destruct (GENERTAIONS_URL !! generation) as [page |]; [| split; reflexivity].
  unfold mbind, M_bind, requests_get, raise, lift.
  destruct (network w (POKEPEDIA ++ page)) as [r |]; [| split; reflexivity].
  destruct (status_code r =? 200); split; reflexivity.
Qed.

(** X2.  [get_pokemons_from_generation] asks the site exactly when the
    generation is one of 1..9, and then once, for the listing of that
    generation; two generations never share a listing.  It prints nothing
    and writes no file. *)
Theorem get_pokemons_requests (generation : Z) (w : world) :
  let run := get_pokemons_from_generation generation w in
  (1 ≤ generation ≤ 9 →
   ∃ page, GENERTAIONS_URL !! generation = Some page
           ∧ requested run.2 = requested w ++ [POKEPEDIA ++ page]
           ∧ ∀ g, GENERTAIONS_URL !! g = Some page → g = generation)
  ∧ (¬ (1 ≤ generation ≤ 9) → requested run.2 = requested w)
  ∧ console run.2 = console w
  ∧ files run.2 = files w.
Proof.
  intros run. unfold run, get_pokemons_from_generation.
  split; [| split].
  - intros Hin. destruct (GENERTAIONS_URL_inside _ Hin) as [page Hpage].
    exists page. split; [exact Hpage |]. split.
    + rewrite Hpage. unfold mbind, M_bind, requests_get, raise, lift.
      destruct (network w (POKEPEDIA ++ page)) as [r |]; [| reflexivity].
      destruct (status_code r =? 200); reflexivity.
    + intros g Hg. exact (GENERTAIONS_URL_injective _ _ _ Hg Hpage).
  - intros Hout. rewrite (GENERTAIONS_URL_outside _ Hout). reflexivity.
  - apply get_pokemons_quiet.
Qed.

(** X3.  For a generation of the table, with [page] its listing:
    [get_pokemons_from_generation] returns a roster exactly when the
    listing is answered with status 200 and holds a table of class
    [tableaustandard]; it raises the [Exception] of the missing table
    exactly on a 200 answer without such a table, and the [Exception]
    carrying the status code on every other status, 404 included: the
    [ValueError] of a missing page is never raised here. *)
Theorem get_pokemons_outcome (generation : Z) (page : pystr) (w : world) :
  GENERTAIONS_URL !! generation = Some page →
  let url := POKEPEDIA ++ page in
  let r := (get_pokemons_from_generation generation w).1 in
  (∀ names, r = Ok names ↔
     ∃ html, network w url = Some {| status_code := 200; response_text := html |}
             ∧ parse_listing html = Ok names)
  ∧ (r = Raise Exception_table ↔
       ∃ html, network w url = Some {| status_code := 200; response_text := html |}
               ∧ ∀ n, n ∈ document html → standard_table n = false)
  ∧ (∀ code, r = Raise (Exception_status code) ↔
       ∃ resp, network w url = Some resp ∧ status_code resp = code ∧ code ≠ 200)
  ∧ (r = Raise RequestException ↔ network w url = None)
  ∧ r ≠ Raise ValueError_404
  ∧ r ≠ Raise ValueError_generation.
Proof.
  intros Hpage url r. unfold r, get_pokemons_from_generation.
  rewrite Hpage. fold url. unfold mbind, M_bind, requests_get, raise, lift.
  assert (Hlisting : ∀ html e, parse_listing html = Raise e →
            e = Exception_table ∧ ∀ n, n ∈ document html → standard_table n = false).
  { intros html e. unfold parse_listing.
    destruct (soup_find standard_table html) as [[t a] |] eqn:Hfind; [discriminate |].
    intros [= <-]. split; [reflexivity |]. by apply soup_find_None. }
  destruct (network w url) as [[code html] |]; cbn [status_code response_text fst].
  2: { repeat split; try discriminate; try (intros (? & ? & _); discriminate);
         intros; try discriminate.
       all: try (intros (? & ? & _); discriminate). }
  destruct (Z.eqb_spec code 200) as [-> | H200]; cbn [fst].
  - split; [| split; [| split; [| split; [| split]]]].
    + intros names. split.
      * intros Hr. exists html. auto.
      * intros (html' & [= <-] & Hr). exact Hr.
    + split.
      * intros Hr. exists html. split; [reflexivity |].
        by destruct (Hlisting _ _ Hr).
      * intros (html' & [= <-] & Hnone). apply soup_find_None in Hnone.
        unfold parse_listing. rewrite Hnone. reflexivity.
    + intros c. split.
      * intros Hr. destruct (Hlisting _ _ Hr). discriminate.
      * intros (resp & [= <-] & Hc & Hne). simpl in Hc. congruence.
    + split; [| discriminate].
      intros Hr. destruct (Hlisting _ _ Hr). discriminate.
    + intros Hr. destruct (Hlisting _ _ Hr). discriminate.
    + intros Hr. destruct (Hlisting _ _ Hr). discriminate.
  - split; [| split; [| split; [| split; [| split]]]]; try discriminate.
    + intros names. split; [discriminate |]. intros (html' & [= ? _] & _). lia.
    + split; [discriminate |]. intros (html' & [= ? _] & _). lia.
    + intros c. split.
      * intros [= <-]. eexists. split; [reflexivity |]. auto.
      * intros (resp & [= <-] & Hc & _). simpl in Hc. by rewrite Hc.
    + split; discriminate.
Qed.

End Fetching.

(** ** Stripped text *)

Section Strip.

Lemma lstrip_suffix (s : pystr) :
  ∃ pre, s = pre ++ lstrip s ∧ Forall (fun c => is_space c = true) pre.
Proof.
  induction s as [| c s IH]; simpl.
  - exists []. split; [reflexivity | constructor].
  - destruct (is_space c) eqn:Hc.
    + destruct IH as (pre & Hs & Hpre). exists (c :: pre). split.
      * simpl. congruence.
      * constructor; assumption.
    + exists []. split; [reflexivity | constructor].
Qed.

Lemma lstrip_head (s : pystr) (c : char) (r : pystr) :
  lstrip s = c :: r → is_space c = false.
Proof.
  induction s as [| a s IH]; simpl; [discriminate |].
  destruct (is_space a) eqn:Ha; [exact IH |].
  intros [= <- _]. exact Ha.
Qed.

Lemma lstrip_fixed (s : pystr) :
  (∀ c r, s = c :: r → is_space c = false) → lstrip s = s.
Proof.
  destruct s as [| c s]; [reflexivity |]. intros Hhead. simpl.
  by rewrite (Hhead c s eq_refl).
Qed.

Lemma strip_stripped (s : pystr) : stripped (strip s).
Proof.
  unfold strip.
  destruct (lstrip_suffix (rev (lstrip s))) as (pre & Hrev & Hpre).
  set (u := lstrip (rev (lstrip s))) in *.
  split.
  - intros c r Hu.
    apply (lstrip_head s c (r ++ rev pre)).
    rewrite <- (rev_involutive (lstrip s)), Hrev, rev_app_distr, Hu.
    reflexivity.
  - intros c r Hu.
    assert (Hhead : u = c :: rev r).
    { rewrite <- (rev_involutive u), Hu, rev_app_distr. reflexivity. }
    exact (lstrip_head _ _ _ Hhead).
Qed.

Lemma strip_fixed (s : pystr) : stripped s → strip s = s.
Proof.
  intros [Hhead Hlast]. unfold strip.
  rewrite (lstrip_fixed s Hhead).
  rewrite lstrip_fixed; [apply rev_involutive |].
  intros c r Hrev. apply (Hlast c (rev r)).
  rewrite <- (rev_involutive s), Hrev. reflexivity.
Qed.

Lemma strip_idempotent (s : pystr) : strip (strip s) = strip s.
Proof. apply strip_fixed, strip_stripped. Qed.

End Strip.

(** ** The record of a page *)

Section Record.
Context {U : UnicodeData}.

Lemma parse_types_Some (html : list node) (t : pystr) :
  parse_types html = Ok (Some t) ↔
  ∃ td, cell_after types_label html = Some td ∧ t = join_types td.
Proof.
  unfold parse_types, cell_after.
  destruct (soup_find types_label html) as [[th after] |]; simpl.
  - destruct (find_next (named (py "td")) after) as [[td rest] |]; simpl.
    + split; [intros [= <-]; eauto | intros (td' & [= <-] & ->); reflexivity].
    + split; [discriminate | intros (? & ? & _); discriminate].
  - split; [discriminate | intros (? & ? & _); discriminate].
Qed.

Lemma labelled_text_Ok (s : pystr) (html : list node) (x : pystr) :
  labelled_text s html = Ok x ↔
  ∃ td, cell_after (label s) html = Some td ∧ x = strip (text td).
Proof.
  unfold labelled_text, cell_after.
  destruct (soup_find (label s) html) as [[th after] |]; simpl.
  - destruct (find_next (named (py "td")) after) as [[td rest] |]; simpl.
    + split; [intros [= <-]; eauto | intros (td' & [= <-] & ->); reflexivity].
    + split; [discriminate | intros (? & ? & _); discriminate].
  - split; [discriminate | intros (? & ? & _); discriminate].
Qed.

Lemma labelled_text_Raise (s : pystr) (html : list node) (e : exn) :
  labelled_text s html = Raise e →
  e = AttributeError ∧ cell_after (label s) html = None.
Proof.
  unfold labelled_text, cell_after.
  destruct (soup_find (label s) html) as [[th after] |]; simpl.
  - destruct (find_next (named (py "td")) after) as [[td rest] |]; simpl;
      [discriminate | intros [= <-]; auto].
  - intros [= <-]; auto.
Qed.

Lemma parse_types_Raise (html : list node) (e : exn) :
  parse_types html = Raise e →
  e = AttributeError
  ∧ is_Some (soup_find types_label html)
  ∧ cell_after types_label html = None.
Proof.
  unfold parse_types, cell_after.
  destruct (soup_find types_label html) as [[th after] |]; simpl; [| discriminate].
  destruct (find_next (named (py "td")) after) as [[td rest] |]; simpl;
    [discriminate | intros [= <-]; eauto].
Qed.

Lemma parse_types_None (html : list node) :
  parse_types html = Ok None ↔ soup_find types_label html = None.
Proof.
  unfold parse_types.
  destruct (soup_find types_label html) as [[th after] |]; simpl; [| done].
  destruct (find_next (named (py "td")) after) as [[td rest] |]; simpl;
    split; discriminate.
Qed.

Lemma parse_stats_error (html : list node) (e : exn) :
  parse_stats html = Raise e → e = ValueError_int.
Proof.
  unfold parse_stats.
  destruct (soup_find stats_anchor html) as [[anchor after] |]; [| discriminate].
  destruct (find_next standard_table after) as [[table rest] |]; [| discriminate].
  rewrite for_each_stat_row.
  destruct (mapM entry_value _); [discriminate | congruence].
Qed.

Lemma parse_html_cells (html : list node) (r : pokemon_info) :
  parse_html html = Ok r →
  ∃ h1 after types_cell height_cell weight_cell st,
    soup_find (named (py "h1")) html = Some (h1, after)
    ∧ cell_after types_label html = Some types_cell
    ∧ cell_after (label (py "Taille")) html = Some height_cell
    ∧ cell_after (label (py "Poids")) html = Some weight_cell
    ∧ parse_stats html = Ok st
    ∧ r = {| name := strip (text h1);
             types := join_types types_cell;
             height := strip (text height_cell);
             weight := strip (text weight_cell);
             stats := st |}.
Proof.
  intros Hr. apply parse_html_Ok in Hr
    as (h1 & after & t & hgt & wgt & st & Hh & Ht & Hhgt & Hwgt & Hst & ->).
  apply parse_types_Some in Ht as (tdt & Htdt & ->).
  apply labelled_text_Ok in Hhgt as (tdh & Htdh & ->).
  apply labelled_text_Ok in Hwgt as (tdw & Htdw & ->).
  by exists h1, after, tdt, tdh, tdw, st.
Qed.


(** X5.  An exception of [parse_html] is one of three: [AttributeError], when the
    [h1] or one of the three cells is not found; [ValueError], when those
    are found and a statistic is not an integer; [UnboundLocalError], when
    all is read and only the label of the types is not found.  The design
    calls all three MalformedPage. *)
Theorem parse_html_raises (html : list node) (e : exn) :
  parse_html html = Raise e →
  kind_of e = MalformedPage
  ∧ ((e = AttributeError
      ∧ (soup_find (named (py "h1")) html = None
         ∨ (is_Some (soup_find types_label html)
            ∧ cell_after types_label html = None)
         ∨ cell_after (label (py "Taille")) html = None
         ∨ cell_after (label (py "Poids")) html = None))
     ∨ (e = ValueError_int
        ∧ parse_stats html = Raise ValueError_int
        ∧ is_Some (cell_after (label (py "Taille")) html)
        ∧ is_Some (cell_after (label (py "Poids")) html))
     ∨ (e = UnboundLocalError
        ∧ soup_find types_label html = None
        ∧ is_Some (soup_find (named (py "h1")) html)
        ∧ is_Some (cell_after (label (py "Taille")) html)
        ∧ is_Some (cell_after (label (py "Poids")) html)
        ∧ ∃ st, parse_stats html = Ok st)).
Proof.
  intros Hraise.
  assert (Hcases :
    (e = AttributeError
      ∧ (soup_find (named (py "h1")) html = None
         ∨ (is_Some (soup_find types_label html)
            ∧ cell_after types_label html = None)
         ∨ cell_after (label (py "Taille")) html = None
         ∨ cell_after (label (py "Poids")) html = None))
     ∨ (e = ValueError_int
        ∧ parse_stats html = Raise ValueError_int
        ∧ is_Some (cell_after (label (py "Taille")) html)
        ∧ is_Some (cell_after (label (py "Poids")) html))
     ∨ (e = UnboundLocalError
        ∧ soup_find types_label html = None
        ∧ is_Some (soup_find (named (py "h1")) html)
        ∧ is_Some (cell_after (label (py "Taille")) html)
        ∧ is_Some (cell_after (label (py "Poids")) html)
        ∧ ∃ st, parse_stats html = Ok st)).
  { revert Hraise. unfold parse_html.
    destruct (soup_find (named (py "h1")) html) as [[h1 after] |] eqn:Hh; simpl.
    2: { intros [= <-]. left. auto. }
    destruct (parse_types html) as [t | e0] eqn:Ht; simpl.
    2: { intros [= <-]. left. apply parse_types_Raise in Ht as (-> & Hsome & Hnone).
         auto. }
    destruct (labelled_text (py "Taille") html) as [hgt | e1] eqn:Hhgt; simpl.
    2: { intros [= <-]. left. apply labelled_text_Raise in Hhgt as [-> Hnone].
         auto. }
    destruct (labelled_text (py "Poids") html) as [wgt | e2] eqn:Hwgt; simpl.
    2: { intros [= <-]. left. apply labelled_text_Raise in Hwgt as [-> Hnone].
         auto. }
    apply labelled_text_Ok in Hhgt as (ch & Hch & _).
    apply labelled_text_Ok in Hwgt as (cw & Hcw & _).
    destruct (parse_stats html) as [st | e3] eqn:Hst; simpl.
    - destruct t as [t |]; [discriminate |].
      intros [= <-]. right. right. apply parse_types_None in Ht.
      rewrite Hch, Hcw. eauto 10.
    - intros [= <-]. right. left. rewrite (parse_stats_error _ _ Hst) in *.
      rewrite Hch, Hcw. eauto. }
  split; [| exact Hcases].
  destruct Hcases as [[-> _] | [[-> _] | [-> _]]]; reflexivity.
Qed.

End Record.

(** ** The cells and the statistics of a record *)

Section Cells.
Context {U : UnicodeData}.

Lemma first_match_skip (p : node → bool) (mid l : list node) :
  (∀ n, n ∈ mid → p n = false) → first_match p (mid ++ l) = first_match p l.
Proof.
  induction mid as [| a mid IH]; intros Hmid; [reflexivity |].
  simpl. rewrite (Hmid a (list_elem_of_here _ _)).
  apply IH. intros n Hn. apply Hmid. by apply list_elem_of_further.
Qed.

Lemma label_not_td (s : pystr) (n : node) :
  label s n = true → named (py "td") n = false.
Proof.
  unfold label. intros Hl. apply andb_true_iff in Hl as [Hth _].
  destruct n as [x | t attrs cs]; [reflexivity |].
  simpl in *. apply bool_decide_eq_true in Hth as ->.
  vm_compute. reflexivity.
Qed.

(** X6.  The height is read in the first [td] that follows the label "Taille"
    in the page, whatever lies between them.  When the label "Poids" comes
    before that [td], as in a table that puts the labels in one row and the
    values in the next, the height and the weight are read in the same
    cell and a record returned has the same text in both fields. *)
Theorem height_and_weight_same_cell (html : list node) (th1 th2 : node) (mid after2 : list node) :
  soup_find (label (py "Taille")) html = Some (th1, mid ++ th2 :: after2) →
  (∀ n, n ∈ mid → named (py "td") n = false) →
  soup_find (label (py "Poids")) html = Some (th2, after2) →
  cell_after (label (py "Taille")) html = cell_after (label (py "Poids")) html
  ∧ ∀ r, parse_html html = Ok r → height r = weight r.
Proof.
  intros Hth1 Hmid Hth2.
  assert (Hcell : cell_after (label (py "Taille")) html
                  = cell_after (label (py "Poids")) html).
  { unfold cell_after. rewrite Hth1, Hth2. simpl.
    unfold find_next. rewrite (first_match_skip _ _ _ Hmid). simpl.
    apply first_match_Some in Hth2 as [Hlabel _].
    rewrite (label_not_td _ _ Hlabel). reflexivity. }
  split; [exact Hcell |].
  intros r Hr. apply parse_html_cells in Hr
    as (? & ? & ? & hc & wc & ? & _ & _ & Hhc & Hwc & _ & ->).
  simpl. rewrite Hcell in Hhc. congruence.
Qed.

Lemma stat_entry_stripped (row : node) (k s : pystr) :
  stat_entry row = Some (k, s) → stripped k ∧ stripped s.
Proof.
  unfold stat_entry.
  destruct (find stat_link row) as [a |]; simpl; [| discriminate].
  destruct (find_all (named (py "td")) row !! 1%nat) as [c |]; simpl; [| discriminate].
  intros [= <- <-]. split; apply strip_stripped.
Qed.

Lemma for_each_stat_row_lookup (rows : list node) (m st : gmap pystr Z) (k : pystr) (v : Z) :
  for_each stat_row rows m = Ok st → st !! k = Some v →
  m !! k = Some v
  ∨ ∃ row s, row ∈ rows ∧ stat_entry row = Some (k, s) ∧ py_int s = Some v.
Proof.
  revert m. induction rows as [| row rows IH]; intros m; cbn [for_each].
  - intros [= <-]. auto.
  - rewrite stat_row_entry.
    destruct (stat_entry row) as [[k' s] |] eqn:Hentry.
    + unfold entry_value. simpl.
      destruct (py_int s) as [v' |] eqn:Hint; simpl; [| discriminate].
      intros Hrest Hk. destruct (IH _ Hrest Hk) as [Hm | (row' & s' & Hin & He & Hv)].
      * unfold set_stat in Hm. simpl in Hm.
        destruct (decide (k' = k)) as [<- | Hne].
        -- rewrite lookup_insert_eq in Hm. injection Hm as <-.
           right. exists row, s. split; [apply list_elem_of_here | auto].
        -- rewrite lookup_insert_ne in Hm by exact Hne. by left.
      * right. exists row', s'. split; [by apply list_elem_of_further | auto].
    + simpl. intros Hrest Hk.
      destruct (IH _ Hrest Hk) as [Hm | (row' & s' & Hin & He & Hv)]; [by left |].
      right. exists row', s'. split; [by apply list_elem_of_further | auto].
Qed.

Lemma for_each_stat_row_keep (rows : list node) (m st : gmap pystr Z) (k : pystr) :
  for_each stat_row rows m = Ok st →
  (∀ row s, row ∈ rows → stat_entry row ≠ Some (k, s)) →
  st !! k = m !! k.
Proof.
  revert m. induction rows as [| row rows IH]; intros m; cbn [for_each].
  - intros [= <-] _. reflexivity.
  - rewrite stat_row_entry. intros Hrun Hother.
    assert (Hrows : ∀ row' s, row' ∈ rows → stat_entry row' ≠ Some (k, s)).
    { intros row' s Hin. apply Hother. by apply list_elem_of_further. }
    destruct (stat_entry row) as [[k' s] |] eqn:Hentry.
    + unfold entry_value in Hrun. simpl in Hrun.
      destruct (py_int s) as [v' |]; simpl in Hrun; [| discriminate].
      rewrite (IH _ Hrun Hrows). unfold set_stat. simpl.
      apply lookup_insert_ne. intros ->.
      exact (Hother row s (list_elem_of_here _ _) Hentry).
    + simpl in Hrun. exact (IH _ Hrun Hrows).
Qed.

Lemma for_each_stat_row_app (rows1 rows2 : list node) (m st : gmap pystr Z) :
  for_each stat_row (rows1 ++ rows2) m = Ok st →
  ∃ mid, for_each stat_row rows1 m = Ok mid ∧ for_each stat_row rows2 mid = Ok st.
Proof.
  revert m. induction rows1 as [| row rows1 IH]; intros m; cbn [for_each app].
  - intros Hrun. by exists m.
  - destruct (stat_row m row) as [m' | e]; simpl; [apply IH | discriminate].
Qed.

Lemma for_each_stat_row_size (rows : list node) (m st : gmap pystr Z) :
  for_each stat_row rows m = Ok st → (size st ≤ size m + length rows)%nat.
Proof.
  revert m. induction rows as [| row rows IH]; intros m; cbn [for_each].
  - intros [= <-]. simpl. lia.
  - rewrite stat_row_entry.
    destruct (stat_entry row) as [[k s] |].
    + unfold entry_value. simpl.
      destruct (py_int s) as [v |]; simpl; [| discriminate].
      intros Hrun. apply IH in Hrun. unfold set_stat in Hrun.
      cbn [fst snd length] in *.
      destruct (m !! k) as [x |] eqn:Hk.
      * rewrite map_size_insert_Some in Hrun by eauto. lia.
      * rewrite map_size_insert_None in Hrun by exact Hk. lia.
    + cbn [mbind result_bind length]. intros Hrun. apply IH in Hrun. lia.
Qed.


Lemma parse_stats_lookup (html : list node) (st : gmap pystr Z) (k : pystr) (v : Z) :
  parse_stats html = Ok st → st !! k = Some v →
  ∃ row s, stat_entry row = Some (k, s) ∧ py_int s = Some v.
Proof.
  unfold parse_stats.
  destruct (soup_find stats_anchor html) as [[anchor after] |].
  2: { intros [= <-]. rewrite lookup_empty. discriminate. }
  destruct (find_next standard_table after) as [[table rest] |].
  2: { intros [= <-]. rewrite lookup_empty. discriminate. }
  intros Hst Hk.
  destruct (for_each_stat_row_lookup _ _ _ _ _ Hst Hk)
    as [Hempty | (row & s & _ & He & Hv)]; [| eauto].
  rewrite lookup_empty in Hempty. discriminate.
Qed.

(** X8.  The name, the height and the weight of a record, and the names of its
    statistics, neither begin nor end with white space; stripping them
    again changes nothing. *)
Theorem record_fields_stripped (html : list node) (r : pokemon_info) :
  parse_html html = Ok r →
  stripped (name r) ∧ stripped (height r) ∧ stripped (weight r)
  ∧ (∀ k, is_Some (stats r !! k) → stripped k)
  ∧ strip (name r) = name r
  ∧ strip (height r) = height r
  ∧ strip (weight r) = weight r.
Proof.
  intros Hr. apply parse_html_cells in Hr
    as (h1 & ? & ? & hc & wc & st & _ & _ & _ & _ & Hst & ->).
  simpl. repeat split; try apply strip_stripped; try apply strip_idempotent.
  - intros c rest Hk. destruct H as [v Hv].
    destruct (parse_stats_lookup _ _ _ _ Hst Hv) as (row & s & He & _).
    destruct (stat_entry_stripped _ _ _ He) as [[Hhead _] _]. eauto.
  - intros c rest Hk. destruct H as [v Hv].
    destruct (parse_stats_lookup _ _ _ _ Hst Hv) as (row & s & He & _).
    destruct (stat_entry_stripped _ _ _ He) as [[_ Hlast] _]. eauto.
Qed.

(** X9.  The links of the cell of the types that have no [title] attribute are
    left out: when none of them has one, a record is returned all the same
    and its types are the empty string. *)
Theorem types_without_titles (html : list node) (types_cell : node) (r : pokemon_info) :
  cell_after types_label html = Some types_cell →
  (∀ a, a ∈ find_all (named (py "a")) types_cell → attr (py "title") a = None) →
  parse_html html = Ok r →
  types r = [].
Proof.
  intros Hcell Hnone Hr. apply parse_html_cells in Hr
    as (? & ? & tc & ? & ? & ? & _ & Htc & _ & _ & _ & ->).
  simpl. rewrite Hcell in Htc. injection Htc as <-.
  unfold join_types, link_titles.
  assert (Hempty : omap (attr (py "title")) (find_all (named (py "a")) types_cell) = []).
  { induction (find_all (named (py "a")) types_cell) as [| a l IH]; [reflexivity |].
    cbn [omap list_omap]. rewrite (Hnone a (list_elem_of_here _ _)).
    apply IH. intros b Hb. apply Hnone. by apply list_elem_of_further. }
  rewrite Hempty. reflexivity.
Qed.

End Cells.

(** ** The names of the types and of the roster *)

Section Names.

Lemma type_suffix_value : py " (type)" = [32; 40; 116; 121; 112; 101; 41]%N.
Proof. reflexivity. Qed.

Lemma starts_with_type_suffix (c : char) (rest : pystr) :
  (∀ d rest', rest = d :: rest' → d ≠ 40%N) →
  starts_with [32; 40; 116; 121; 112; 101; 41]%N (c :: rest) = false.
Proof.
  intros Hnext. cbn [starts_with].
  destruct (32 =? c)%N; [| reflexivity].
  destruct rest as [| d rest']; [reflexivity |].
  cbn [starts_with andb].
  destruct (N.eqb_spec 40 d) as [<- | _]; [| reflexivity].
  exfalso. exact (Hnext _ _ eq_refl eq_refl).
Qed.

Lemma replace_type_suffix (t : pystr) :
  40%N ∉ t →
  replace (py " (type)") [] (t ++ py " (type)") = t
  ∧ replace (py " (type)") [] t = t.
Proof.
  rewrite type_suffix_value. unfold replace.
  induction t as [| c t IH]; intros Hparen; [split; reflexivity |].
  apply not_elem_of_cons in Hparen as [Hc Ht].
  destruct (IH Ht) as [IH1 IH2].
  split.
  - change ((c :: t) ++ [32; 40; 116; 121; 112; 101; 41]%N)
      with (c :: (t ++ [32; 40; 116; 121; 112; 101; 41]%N)).
    cbn [replace_from]. rewrite starts_with_type_suffix; [by rewrite IH1 |].
    intros d rest' Hrest ->. destruct t as [| d' t'].
    + discriminate.
    + injection Hrest as -> _. apply Ht. apply list_elem_of_here.
  - cbn [replace_from]. rewrite starts_with_type_suffix; [by rewrite IH2 |].
    intros d rest' -> ->. apply Ht. apply list_elem_of_here.
Qed.

(** X10.  When the titles of the links of the cell of the types are names
    without parenthesis, each one followed or not by " (type)", the types
    of the record are these names joined with hyphens: the suffix is
    removed where it is and a title without it is kept as it is. *)
Theorem join_types_names (cell : node) (names : list pystr) :
  Forall2 (fun title nm => (40%N ∉ nm) ∧ (title = nm ∨ title = nm ++ py " (type)"))
    (link_titles cell) names →
  join_types cell = join (py "-") names.
Proof.
  intros Htitles. unfold join_types. f_equal.
  induction Htitles as [| title nm titles names [Hparen Htitle] _ IH];
    [reflexivity |].
  cbn [map]. rewrite IH. f_equal.
  destruct (replace_type_suffix nm Hparen) as [Hsuffix Hplain].
  destruct Htitle as [-> | ->]; assumption.
Qed.

Lemma lower_rest_ascii (r before : pystr) :
  ascii_only r → lower_rest (U := basic_latin) before r = map lower_ascii r.
Proof.
  revert before. induction r as [| c r IH]; intros before Hascii; [reflexivity |].
  apply Forall_cons in Hascii as [Hc Hr].
  cbn [lower_rest map]. rewrite (IH _ Hr). unfold lower_at.
  destruct (N.eqb_spec c 931) as [-> | _]; [lia |].
  simpl. unfold lower_ascii.
  destruct ((65 <=? c)%N && (c <=? 90)%N); reflexivity.
Qed.

Lemma lower_ascii_idempotent (c : char) : lower_ascii (lower_ascii c) = lower_ascii c.
Proof.
  unfold lower_ascii.
  destruct ((65 <=? c)%N && (c <=? 90)%N) eqn:Hup; [| by rewrite Hup].
  apply andb_true_iff in Hup as [Hlo Hhi]. apply N.leb_le in Hlo, Hhi.
  destruct ((65 <=? c + 32)%N && (c + 32 <=? 90)%N) eqn:Hup2; [| reflexivity].
  apply andb_true_iff in Hup2 as [_ Hhi2]. apply N.leb_le in Hhi2. lia.
Qed.

Lemma title_ascii_idempotent (c : char) : title_ascii (title_ascii c) = title_ascii c.
Proof.
  unfold title_ascii.
  destruct ((97 <=? c)%N && (c <=? 122)%N) eqn:Hlow; [| by rewrite Hlow].
  apply andb_true_iff in Hlow as [Hlo Hhi]. apply N.leb_le in Hlo, Hhi.
  destruct ((97 <=? c - 32)%N && (c - 32 <=? 122)%N) eqn:Hlow2; [| reflexivity].
  apply andb_true_iff in Hlow2 as [Hlo2 _]. apply N.leb_le in Hlo2. lia.
Qed.

Lemma capitalize_ascii (c : char) (r : pystr) :
  ascii_only r →
  capitalize (U := basic_latin) (c :: r) = title_ascii c :: map lower_ascii r.
Proof.
  intros Hr. unfold capitalize. rewrite (lower_rest_ascii _ _ Hr).
  unfold title_ascii. simpl.
  destruct ((97 <=? c)%N && (c <=? 122)%N); reflexivity.
Qed.

(** X11.  On a name of ASCII characters, with the tables of Basic Latin:
    capitalizing keeps the length and the ASCII range, leaves no capital
    letter after the first character, and capitalizing the result again
    changes nothing. *)
Theorem capitalize_ascii_normal (s : pystr) :
  ascii_only s →
  let n := capitalize (U := basic_latin) s in
  capitalize (U := basic_latin) n = n
  ∧ length n = length s
  ∧ ascii_only n
  ∧ ∀ x, x ∈ tail n → ¬ (65 ≤ x ≤ 90)%N.
Proof.
  intros Hs n. unfold n. destruct s as [| c r].
  { split; [reflexivity |]. split; [reflexivity |]. split; [constructor |].
    intros x Hx. inversion Hx. }
  apply Forall_cons in Hs as [Hc Hr].
  rewrite (capitalize_ascii c r Hr).
  assert (Hlower : ascii_only (map lower_ascii r)).
  { apply Forall_fmap. eapply Forall_impl; [exact Hr |].
    intros x Hx. simpl. unfold lower_ascii.
    destruct ((65 <=? x)%N && (x <=? 90)%N) eqn:Hup; [| exact Hx].
    apply andb_true_iff in Hup as [_ Hhi]. apply N.leb_le in Hhi. lia. }
  split; [| split; [| split]].
  - rewrite (capitalize_ascii _ _ Hlower), title_ascii_idempotent.
    f_equal. rewrite <- list_fmap_compose. apply list_fmap_ext.
    intros i x _. apply lower_ascii_idempotent.
  - simpl. by rewrite length_fmap.
  - apply Forall_cons. split; [| exact Hlower].
    unfold title_ascii. destruct ((97 <=? c)%N && (c <=? 122)%N); lia.
  - cbn [tail]. intros x Hx Hup.
    apply list_elem_of_fmap in Hx as (y & -> & _). unfold lower_ascii in Hup.
    destruct ((65 <=? y)%N && (y <=? 90)%N) eqn:Hy.
    { apply andb_true_iff in Hy as [Hlo _]. apply N.leb_le in Hlo. lia. }
    destruct Hup as [Hlo Hhi]. apply N.leb_le in Hlo, Hhi.
    rewrite Hlo, Hhi in Hy. discriminate.
Qed.

End Names.

(** ** The effects of the dataset build *)

Section DatasetEffects.
Context {U : UnicodeData}.

Lemma after_pokemon_console (file pokemon : pystr) (w : world) :
  console (after_pokemon file pokemon w) = console w ++ reports (network w) pokemon.
Proof.
  unfold after_pokemon, reports.
  destruct (fetch_page (network w) pokemon) as [html | e]; [| reflexivity].
  destruct (parse_html html); simpl; by rewrite <- app_assoc.
Qed.

Lemma write_pokemons_console (file : pystr) (roster : list pystr) (w w' : world) :
  write_pokemons file roster w = (Ok tt, w') →
  console w' = console w ++ concat (map (reports (network w)) roster).
Proof.
  revert w. induction roster as [| pokemon rest IH]; intros w.
  - intros [= <-]. simpl. by rewrite app_nil_r.
  - rewrite write_pokemons_cons. intros Hrun. rewrite (IH _ Hrun).
    rewrite after_pokemon_console, after_pokemon_network.
    simpl. by rewrite <- app_assoc.
Qed.

Lemma reports_account (net : pystr → option response) (pokemon : pystr) :
  (length (filter (fun l => is_error_line l = true) (reports net pokemon))
   + length (rows_written net [pokemon]) = 1)%nat.
Proof.
  unfold reports, rows_written, row_if_ok, pokemon_row. cbn [omap list_omap].
  destruct (fetch_page net pokemon) as [html | e]; simpl; [| reflexivity].
  destruct (parse_html html); reflexivity.
Qed.

Lemma roster_account (net : pystr → option response) (roster : list pystr) :
  (length (filter (fun l => is_error_line l = true)
             (concat (map (reports net) roster)))
   + length (rows_written net roster) = length roster)%nat.
Proof.
  induction roster as [| pokemon rest IH]; [reflexivity |].
  cbn [map concat]. rewrite filter_app, length_app, rows_written_cons, length_app.
  pose proof (reports_account net pokemon) as Hone.
  change (length (pokemon :: rest)) with (S (length rest)). lia.
Qed.

(** The world [create_database] leaves when the roster is obtained. *)
Lemma create_database_world (generation : Z) (w w1 : world) (roster : list pystr) :
  get_pokemons_from_generation generation w = (Ok roster, w1) →
  ∃ w2, create_database generation w = (Ok tt, w2)
        ∧ network w2 = network w
        ∧ requested w2 = requested w1 ++ map (app POKEPEDIA) roster
        ∧ console w2 = console w1 ++ concat (map (reports (network w)) roster)
        ∧ files w2
          = <[csv_path generation
              := Header fieldnames :: rows_written (network w) roster]> (files w).
Proof.
  intros Hroster.
  destruct (get_pokemons_network _ _ _ _ Hroster) as [Hnet Hfiles1].
  unfold create_database, mbind, M_bind. rewrite Hroster.
  unfold open_w, write_line.
  set (w0 := put_files _ (put_files _ w1)).
  assert (Hfile : files w0 !! csv_path generation = Some [Header fieldnames]).
  { unfold w0. simpl. rewrite lookup_alter_eq, lookup_insert_eq. reflexivity. }
  destruct (write_pokemons_run (csv_path generation) roster w0 _ Hfile)
    as (w2 & Hrun & Hnet2 & Hfiles & Hreq).
  exists w2. split; [exact Hrun |].
  assert (Hnet0 : network w0 = network w) by (unfold w0; simpl; exact Hnet).
  split; [congruence |]. split; [exact Hreq |]. split.
  - rewrite (write_pokemons_console _ _ _ _ Hrun), Hnet0. reflexivity.
  - rewrite Hfiles, Hnet0. unfold w0. simpl. rewrite Hfiles1.
    apply map_eq. intros k. destruct (decide (csv_path generation = k)) as [<- | Hne].
    + by rewrite !lookup_insert_eq.
    + by rewrite !lookup_insert_ne, lookup_alter_ne, lookup_insert_ne.
Qed.




(** X15.  When [create_database] raises, no file has been opened: the files,
    among them a dataset written before, and the console are as they
    were. *)
Theorem create_database_failure_keeps_files (generation : Z) (w w' : world) (e : exn) :
  create_database generation w = (Raise e, w') →
  files w' = files w ∧ console w' = console w ∧ network w' = network w.
Proof.
  intros Hrun.
  destruct (get_pokemons_from_generation generation w) as [[roster | e1] w1] eqn:Hroster.
  - destruct (create_database_world _ _ _ _ Hroster) as (w2 & Hrun2 & _). congruence.
  - rewrite (create_database_raise _ _ _ _ Hroster) in Hrun. injection Hrun as _ <-.
    pose proof (get_pokemons_quiet generation w) as [Hc Hf].
    rewrite Hroster in Hc, Hf.
    destruct (get_pokemons_network _ _ _ _ Hroster) as [Hnet _]. auto.
Qed.

Lemma create_database_network (generation : Z) (w w' : world) (r : result unit) :
  create_database generation w = (r, w') → network w' = network w.
Proof.
  intros Hrun.
  destruct (get_pokemons_from_generation generation w) as [[roster | e1] w1] eqn:Hroster.
  - destruct (create_database_world _ _ _ _ Hroster) as (w2 & Hrun2 & Hnet & _).
    congruence.
  - rewrite (create_database_raise _ _ _ _ Hroster) in Hrun. injection Hrun as _ <-.
    by destruct (get_pokemons_network _ _ _ _ Hroster).
Qed.

End DatasetEffects.

(** ** The lookup and the entry point *)

Section Lookup.
Context {U : UnicodeData}.

Lemma get_pokemon_run (pokemon : pystr) (w : world) :
  get_pokemon pokemon w
  = let w1 := add_request (POKEPEDIA ++ pokemon) w in
    match fetch_page (network w) pokemon with
    | Raise e => (Raise e, w1)
    | Ok html =>
        match parse_html html with
        | Raise e => (Raise e, w1)
        | Ok info => (Ok tt, add_line (Shown info) w1)
        end
    end.
Proof.
  unfold get_pokemon, mbind, M_bind. rewrite get_html_pokemon_run.
  destruct (fetch_page (network w) pokemon) as [html | e]; [| reflexivity].
  unfold lift, print. destruct (parse_html html); reflexivity.
Qed.

Lemma get_pokemon_world (pokemon : pystr) (w w' : world) (r : result unit) :
  get_pokemon pokemon w = (r, w') →
  requested w' = requested w ++ [POKEPEDIA ++ pokemon]
  ∧ files w' = files w
  ∧ network w' = network w.
Proof.
  rewrite get_pokemon_run. cbn zeta.
  destruct (fetch_page (network w) pokemon) as [html | e];
    [| intros [= _ <-]; auto].
  destruct (parse_html html); intros [= _ <-]; auto.
Qed.

(** X16.  [get_pokemon] asks the site once, for the name as typed: the stripped
    and capitalized form of the name is computed and dropped.  It writes no
    file, and prints the record only when the page is fetched and parsed. *)
Theorem get_pokemon_effects (pokemon : pystr) (w : world) :
  let run := get_pokemon pokemon w in
  requested run.2 = requested w ++ [POKEPEDIA ++ pokemon]
  ∧ files run.2 = files w
  ∧ network run.2 = network w
  ∧ (∀ e, run.1 = Raise e → console run.2 = console w)
  ∧ (run.1 = Ok tt →
     ∃ html info, fetch_page (network w) pokemon = Ok html
                  ∧ parse_html html = Ok info
                  ∧ console run.2 = console w ++ [Shown info]).
Proof.
  intros run. unfold run. rewrite get_pokemon_run. cbn zeta.
  destruct (fetch_page (network w) pokemon) as [html | e]; cbn [fst snd].
  2: { do 4 (split; [reflexivity |]). intros Hok. discriminate Hok. }
  destruct (parse_html html) as [info | e] eqn:Hparse; cbn [fst snd].
  - do 3 (split; [reflexivity |]). split.
    + intros e He. discriminate He.
    + intros _. exists html, info.
      split; [reflexivity |]. split; [exact Hparse | reflexivity].
  - do 4 (split; [reflexivity |]). intros Hok. discriminate Hok.
Qed.





(** X21.  With any other answer [main] runs the lookup of the second line: it
    asks the site once, for that line as typed, writes no file, and prints
    the exception of the lookup instead of raising it. *)
Theorem main_lookup_mode (answer line : pystr) (w : world) :
  lower (strip answer) ≠ py "yes" →
  let run := main answer line w in
  run.2 = (get_pokemon line w).2
  ∧ requested run.2 = requested w ++ [POKEPEDIA ++ line]
  ∧ files run.2 = files w
  ∧ ((get_pokemon line w).1 = Ok tt → run.1 = Ok None)
  ∧ (∀ e, (get_pokemon line w).1 = Raise e → run.1 = Ok (Some (Error e))).
Proof.
  intros Hno run. unfold run, main, try_except.
  rewrite (bool_decide_eq_false_2 _ Hno). unfold mbind, M_bind, mret, M_ret.
  destruct (get_pokemon line w) as [[[] | e] w1] eqn:Hrun;
    destruct (get_pokemon_world _ _ _ _ Hrun) as (Hreq & Hfiles & _);
    cbn [fst snd] in *.
  - split; [reflexivity |]. split; [exact Hreq |]. split; [exact Hfiles |].
    split; [reflexivity |]. intros e He. discriminate He.
  - split; [reflexivity |]. split; [exact Hreq |]. split; [exact Hfiles |].
    split; [intros Hok; discriminate Hok |]. by intros e' [= ->].
Qed.

End Lookup.

(** ** The further properties on the samples *)

Lemma get_pokemons_outcome_witness :
  ∃ names, (get_pokemons_from_generation (U := basic_latin) 1 MoreSamples.world1).1
           = Ok names.
Proof.
  destruct (GENERTAIONS_URL !! 1) as [page |] eqn:Hpage;
    [| vm_compute in Hpage; discriminate].
  destruct (get_pokemons_outcome (U := basic_latin) 1 page MoreSamples.world1 Hpage)
    as (Hok & _).
  eexists. apply Hok. exists Samples.listing5.
  vm_compute in Hpage. injection Hpage as <-.
  split; vm_compute; reflexivity.
Defined.

Lemma parse_html_raises_witness :
  parse_html (U := basic_latin) Samples.mew_without_types = Raise UnboundLocalError
  ∧ kind_of UnboundLocalError = MalformedPage.
Proof.
  assert (Hraise : parse_html (U := basic_latin) Samples.mew_without_types
                   = Raise UnboundLocalError) by (vm_compute; reflexivity).
  split; [exact Hraise |].
  exact (proj1 (parse_html_raises (U := basic_latin) _ _ Hraise)).
Defined.

Lemma height_and_weight_same_cell_witness :
  ∃ r, parse_html (U := basic_latin) MoreSamples.columns_layout = Ok r
       ∧ height r = weight r.
Proof.
  destruct (soup_find (label (py "Poids")) MoreSamples.columns_layout)
    as [[th2 after2] |] eqn:H2; [| vm_compute in H2; discriminate].
  assert (H1 : soup_find (label (py "Taille")) MoreSamples.columns_layout
               = Some (Html.el "th" [] [Html.txt "Taille"],
                       [Html.txt "Taille"] ++ th2 :: after2)).
  { vm_compute in H2. injection H2 as <- <-. vm_compute. reflexivity. }
  assert (Hmid : ∀ n, n ∈ [Html.txt "Taille"] → named (py "td") n = false).
  { intros n Hn. apply list_elem_of_singleton in Hn as ->. reflexivity. }
  destruct (parse_html (U := basic_latin) MoreSamples.columns_layout)
    as [r | e] eqn:Hr; [| vm_compute in Hr; discriminate].
  exists r. split; [reflexivity |].
  exact (proj2 (height_and_weight_same_cell (U := basic_latin) _ _ _ _ _ H1 Hmid H2)
           r Hr).
Defined.


Lemma record_fields_stripped_witness :
  ∃ r, parse_html (U := basic_latin) Samples.dracaufeu = Ok r
       ∧ strip (name r) = name r.
Proof.
  destruct (parse_html (U := basic_latin) Samples.dracaufeu)
    as [r | e] eqn:Hr; [| vm_compute in Hr; discriminate].
  exists r. split; [reflexivity |].
  destruct (record_fields_stripped (U := basic_latin) _ _ Hr)
    as (_ & _ & _ & _ & Hname & _).
  exact Hname.
Defined.

Lemma types_without_titles_witness :
  ∃ r, parse_html (U := basic_latin) MoreSamples.untitled_type = Ok r
       ∧ types r = [].
Proof.
  destruct (cell_after types_label MoreSamples.untitled_type)
    as [cell |] eqn:Hcell; [| vm_compute in Hcell; discriminate].
  destruct (parse_html (U := basic_latin) MoreSamples.untitled_type)
    as [r | e] eqn:Hr; [| vm_compute in Hr; discriminate].
  exists r. split; [reflexivity |].
  apply (types_without_titles (U := basic_latin) _ cell r Hcell); [| exact Hr].
  vm_compute in Hcell. injection Hcell as <-.
  intros a Ha.
  assert (Hlinks : find_all (named (py "a"))
                     (Html.el "td" [] [Html.el "a" [("href", "/Psy")] [Html.txt "Psy"]])
                   = [Html.el "a" [("href", "/Psy")] [Html.txt "Psy"]])
    by (vm_compute; reflexivity).
  change (a ∈ find_all (named (py "a"))
               (Html.el "td" [] [Html.el "a" [("href", "/Psy")] [Html.txt "Psy"]]))
    in Ha.
  rewrite Hlinks in Ha. apply list_elem_of_singleton in Ha as ->.
  vm_compute. reflexivity.
Defined.

Lemma join_types_names_witness :
  join_types
    (Html.el "td" [] [Html.link "Feu (type)" "Feu"; Html.link "Vol" "Vol"])
  = py "Feu-Vol".
Proof.
  rewrite (join_types_names _ [py "Feu"; py "Vol"]); [reflexivity |].
  assert (Htitles :
    link_titles (Html.el "td" [] [Html.link "Feu (type)" "Feu"; Html.link "Vol" "Vol"])
    = [py "Feu" ++ py " (type)"; py "Vol"]) by (vm_compute; reflexivity).
  rewrite Htitles.
  constructor; [| constructor; [| constructor]].
  - split; [| by right].
    intros Hin. vm_compute in Hin.
    repeat (apply elem_of_cons in Hin as [Hin | Hin]; [discriminate |]).
    inversion Hin.
  - split; [| by left].
    intros Hin. vm_compute in Hin.
    repeat (apply elem_of_cons in Hin as [Hin | Hin]; [discriminate |]).
    inversion Hin.
Defined.

Lemma capitalize_ascii_normal_witness :
  ascii_only (py "porygon-Z")
  ∧ capitalize (U := basic_latin) (capitalize (U := basic_latin) (py "porygon-Z"))
    = capitalize (U := basic_latin) (py "porygon-Z").
Proof.
  assert (Hascii : ascii_only (py "porygon-Z")).
  { unfold ascii_only. vm_compute. repeat (constructor; [reflexivity |]). constructor. }
  split; [exact Hascii |].
  exact (proj1 (capitalize_ascii_normal _ Hascii)).
Defined.




Lemma create_database_failure_keeps_files_witness :
  ∃ e w',
    create_database (U := basic_latin) 1 MoreSamples.world_no_listing = (Raise e, w')
    ∧ files w' !! csv_path 1 = Some [Header []].
Proof.
  destruct (create_database (U := basic_latin) 1 MoreSamples.world_no_listing)
    as [[[] | e] w'] eqn:Hrun; [vm_compute in Hrun; discriminate |].
  exists e, w'. split; [reflexivity |].
  destruct (create_database_failure_keeps_files (U := basic_latin) 1 _ w' e Hrun)
    as (-> & _).
  vm_compute. reflexivity.
Defined.



Lemma main_lookup_mode_witness :
  requested (main (U := basic_latin) (py "no") (py "Dracaufeu") MoreSamples.world1).2
  = [POKEPEDIA ++ py "Dracaufeu"].
Proof.
  assert (Hno : lower (U := basic_latin) (strip (py "no")) ≠ py "yes").
  { intros Heq. vm_compute in Heq. discriminate Heq. }
  destruct (main_lookup_mode (U := basic_latin) (py "no") (py "Dracaufeu")
              MoreSamples.world1 Hno) as (_ & Hreq & _).
  exact Hreq.
Defined.
